(** * easybuild.tools.toolchain.toolchain: the abstract [Toolchain] class

    A shallow embedding of [src/easybuild/tools/toolchain/toolchain.py]
    and the properties of dependency resolution, dependency registration,
    the [prepare] life cycle, flag assembly and environment application.

    Python values are embedded as follows.
    - A dependency descriptor is a Python dict with string keys: a
      [gmap string pyval].
    - A method of [Toolchain] reads and mutates [self] and talks to the
      module system, the logger and the process environment: it is a
      computation in the monad [M], a state-and-exception monad over the
      pair of the toolchain object and the [World].  A raised exception
      keeps the state reached so far, as in Python.
    - The module system ([Modules]), the variable container
      ([ToolchainVariables]) and the option container ([ToolchainOptions])
      are external collaborators: their answers are fields of records the
      toolchain or the world carries, and every call to the module system
      and to [setvar] is recorded in the world's call trace.
    - The logger ([vsc.fancylogger]) is external as well: [log.debug]
      calls are not modelled, [log.info] and [log.error] append a record
      to the world's log, [log.raiseException] raises. *)

From stdpp Require Import gmap strings list fin_maps.

Local Open Scope string_scope.
Local Open Scope list_scope.

(** ** Python values *)

Inductive pyval :=
| PyNone
| PyBool (b : bool)
| PyStr (s : string).

#[global] Instance pyval_eq_dec : EqDecision pyval.
Proof. solve_decision. Defined.

(** Truth value of a Python object: [None], [False] and [''] are false. *)
Definition truthy (v : pyval) : bool :=
  match v with
  | PyNone => false
  | PyBool b => b
  | PyStr s => negb (bool_decide (s = ""))
  end.

(** A Python dict with string keys. *)
Abbreviation dict := (gmap string pyval).

(** ** Exceptions *)

(** Every [self.log.raiseException(msg)] site has its own constructor (the
    arguments are the values formatted into [msg]); the others are the
    built-in exceptions the modelled operations can raise. *)
Inductive exn :=
| InitNoName                          (* "init: no name provided" *)
| InitNoVersion                       (* "init: no version provided" *)
| SoftwareRootNotFound (name : pyval) (* "get_software_root software root for %s was not found in environment" *)
| NoToolchainVersionForDependency (name : pyval) (toolchain_suffix : string)
                                      (* "get_dependency_version: No toolchain version for dependency name %s (suffix %s) found" *)
| LegacyTkFound (dep : dict)          (* "add_dependencies: legacy tk found in dep %s" *)
| NoModuleFoundForDependency (name tc : pyval)
                                      (* "add_dependencies: no module found for dependency %s/%s" *)
| NoModuleFoundForToolchain (name version : string)
                                      (* "No module found for toolchain name '%s' (%s)" *)
| CommaSeparatedListDeprecated        (* "_setenv_variables: using commas-separated list. should be deprecated." *)
| KeyError (key : string)
| TypeError
| IndexError
| AttributeError.

Inductive result (A : Type) :=
| Ok (a : A)
| Raise (e : exn).
Arguments Ok {A} a.
Arguments Raise {A} e.

(** ** The module system and the process *)

(** An entry of [Modules.dependencies_for]. *)
Record ToolchainDependency := mkToolchainDependency {
  td_name : string;
  td_version : string
}.

(** What the host's module system answers; [get_software_root] is the
    lookup of [easybuild.tools.modules] ([None] when no root is known). *)
Record Modules := mkModules {
  mod_exists : pyval -> pyval -> bool;
  mod_available : pyval -> string -> list (string * string);
  mod_dependencies_for : string -> string -> nat -> list ToolchainDependency;
  mod_get_software_root : pyval -> option string
}.

(** An argument of [Modules.add_module]: a [(name, version)] tuple or a
    dependency dict. *)
Inductive module_item :=
| ModTuple (name version : string)
| ModDep (dep : dict).

(** A recorded call to the module system or to [setvar]. *)
Inductive call :=
| Call_exists (name version : pyval)
| Call_available (name : pyval) (suffix : string)
| Call_add_module (mods : list module_item)
| Call_load
| Call_dependencies_for (name version : string) (depth : nat)
| Call_setvar (key val : string).

Inductive level := INFO | ERROR.

Record World := mkWorld {
  modules : Modules;
  calls : list call;
  environ : gmap string string;
  log : list (level * string)
}.

Definition world_call (c : call) (w : World) : World :=
  mkWorld (modules w) (calls w ++ [c]) (environ w) (log w).

Definition world_log (l : level) (msg : string) (w : World) : World :=
  mkWorld (modules w) (calls w) (environ w) (log w ++ [(l, msg)]).

(** Modelled from the spec: [easybuild.tools.environment.setvar], which is
    not under [src/]: "for each applied variable K=V, sets" the process
    environment, here [os.environ[key] = val]; the call is recorded. *)
Definition world_setvar (key val : string) (w : World) : World :=
  mkWorld (modules w) (calls w ++ [Call_setvar key val])
          (<[key := val]> (environ w)) (log w).

(** ** The toolchain object *)

(** The option container: a dict, with the [option] method of
    [ToolchainOptions] as a field. *)
Record ToolchainOptions := mkToolchainOptions {
  opts : dict;
  option_method : dict -> string -> pyval
}.

(** The interface of the variable container over its carrier [V]:
    [tv_items] is [[(k, str(v)) for k, v in items()]], [tv_packed] is
    [try_function_on_element('set_packed_linker_options')]. *)
Record ToolchainVariables (V : Type) := mkToolchainVariables {
  tv_new : V;
  tv_items : V -> list (string * string);
  tv_append_subdirs : string -> string -> list string -> V -> V;
  tv_packed : V -> V
}.
Arguments tv_new {V} _.
Arguments tv_items {V} _ _.
Arguments tv_append_subdirs {V} _ _ _ _ _.
Arguments tv_packed {V} _ _.

Definition DUMMY_NAME : string := "dummy".
Definition DUMMY_VERSION : string := "dummy".

Section Toolchain.

Context {V : Type}.

(** The class of a toolchain: its class attributes and overridable
    methods.  [attrs] lists the attributes [dir(self)] reports that hold a
    list of strings, with their values. *)
Record ToolchainClass := mkToolchainClass {
  NAME : option string;
  VERSION : option string;
  OPTIONS_CLASS : ToolchainOptions;
  VARIABLES_CLASS : ToolchainVariables V;
  attrs : list (string * list string);
  is_required : string -> bool
}.

Record Toolchain := mkToolchain {
  cls : ToolchainClass;
  name : string;
  version : string;
  options : ToolchainOptions;
  variables : V;
  vars : option (list (string * string));
  dependencies : list dict;
  toolchain_dependencies : list ToolchainDependency
}.

Definition set_dependencies (d : list dict) (t : Toolchain) : Toolchain :=
  mkToolchain (cls t) (name t) (version t) (options t) (variables t) (vars t)
              d (toolchain_dependencies t).

Definition set_toolchain_dependencies (d : list ToolchainDependency)
    (t : Toolchain) : Toolchain :=
  mkToolchain (cls t) (name t) (version t) (options t) (variables t) (vars t)
              (dependencies t) d.

Definition set_variables_field (v : V) (t : Toolchain) : Toolchain :=
  mkToolchain (cls t) (name t) (version t) (options t) v (vars t)
              (dependencies t) (toolchain_dependencies t).

Definition set_vars (v : option (list (string * string))) (t : Toolchain)
    : Toolchain :=
  mkToolchain (cls t) (name t) (version t) (options t) (variables t) v
              (dependencies t) (toolchain_dependencies t).

(** ** The monad of methods *)

Definition State : Type := Toolchain * World.

Definition M (A : Type) : Type := State -> result A * State.

#[global] Instance M_ret : MRet M := fun A a s => (Ok a, s).

#[global] Instance M_bind : MBind M := fun A B f m s =>
  match m s with
  | (Ok a, s') => f a s'
  | (Raise e, s') => (Raise e, s')
  end.

Definition raise {A} (e : exn) : M A := fun s => (Raise e, s).

Definition get_self : M Toolchain := fun s => (Ok (fst s), s).
Definition get_world : M World := fun s => (Ok (snd s), s).
Definition modify_self (f : Toolchain -> Toolchain) : M unit :=
  fun s => (Ok tt, (f (fst s), snd s)).
Definition modify_world (f : World -> World) : M unit :=
  fun s => (Ok tt, (fst s, f (snd s))).

Definition log_info (msg : string) : M unit := modify_world (world_log INFO msg).

(** Modelled from the spec: [self.log.error] of the logger, which is not
    under [src/].  A mismatch is "surfaced as a warning/error record, not
    a raised failure" and "non-fatal mismatches are logged/reported for
    operator review without aborting": the call appends an [ERROR] record
    and returns. *)
Definition log_error (msg : string) : M unit := modify_world (world_log ERROR msg).

Definition setvar (key val : string) : M unit := modify_world (world_setvar key val).

(** Calls to the module system: the call is recorded, the answer is the
    host's. *)
Definition Modules_exists (n v : pyval) : M bool :=
  modify_world (world_call (Call_exists n v));;
  w ← get_world; mret (mod_exists (modules w) n v).

Definition Modules_available (n : pyval) (suffix : string)
    : M (list (string * string)) :=
  modify_world (world_call (Call_available n suffix));;
  w ← get_world; mret (mod_available (modules w) n suffix).

Definition Modules_add_module (mods : list module_item) : M unit :=
  modify_world (world_call (Call_add_module mods)).

Definition Modules_load : M unit := modify_world (world_call Call_load).

Definition Modules_dependencies_for (n v : string) (depth : nat)
    : M (list ToolchainDependency) :=
  modify_world (world_call (Call_dependencies_for n v depth));;
  w ← get_world; mret (mod_dependencies_for (modules w) n v depth).

(** ** Python helpers *)

(** [d[key]] *)
Definition getitem (d : dict) (key : string) : M pyval :=
  match d !! key with
  | Some v => mret v
  | None => raise (KeyError key)
  end.

(** ["".join(l)]: every item has to be a string. *)
Fixpoint str_join (l : list pyval) : result string :=
  match l with
  | [] => Ok ""
  | PyStr s :: l' =>
      match str_join l' with
      | Ok r => Ok (s +:+ r)
      | Raise e => Raise e
      end
  | _ :: _ => Raise TypeError
  end.

Definition lift {A} (r : result A) : M A := fun s => (r, s).

(** [for x in l: body(x)]; a raised exception leaves the loop. *)
Fixpoint for_each {A} (l : list A) (body : A -> M unit) : M unit :=
  match l with
  | [] => mret tt
  | x :: l' => body x;; for_each l' body
  end.

(** ** [Toolchain.__init__] *)

Definition init (c : ToolchainClass) (name version : option string)
    : result Toolchain :=
  match (match name with Some n => Some n | None => NAME c end) with
  | None => Raise InitNoName
  | Some n =>
      match (match version with Some v => Some v | None => VERSION c end) with
      | None => Raise InitNoVersion
      | Some v =>
          Ok (mkToolchain c n v (OPTIONS_CLASS c) (tv_new (VARIABLES_CLASS c))
                          None [] [])
      end
  end.

(** ** [get_dependency_version] *)

Definition get_dependency_version (dependency : dict) : M pyval :=
  self ← get_self;
  let toolchain :=
    if negb (bool_decide (name self = DUMMY_NAME))
    then "-" +:+ name self +:+ "-" +:+ version self
    else if negb (bool_decide (version self = DUMMY_VERSION))
         then version self
         else "" in
  let toolchain :=
    if match dependency !! DUMMY_NAME with
       | Some v => truthy v
       | None => false
       end
    then "" else toolchain in
  let suffix := default (PyStr "") (dependency !! "suffix") in
  match dependency !! "version" with
  | Some v =>
      version ← lift (str_join [v; PyStr toolchain; suffix]);
      mret (PyStr version)
  | None =>
      toolchain_suffix ← lift (str_join [PyStr toolchain; suffix]);
      dname ← getitem dependency "name";
      matches ← Modules_available dname toolchain_suffix;
      if bool_decide (0 < length matches)
      then
        match last matches with
        | Some m => let version := snd m in mret PyNone
        | None => raise IndexError
        end
      else raise (NoToolchainVersionForDependency dname toolchain_suffix)
  end.

(** ** [_get_software_root] and [get_software_root] *)

Definition _get_software_root (n : pyval) : M string :=
  w ← get_world;
  match mod_get_software_root (modules w) n with
  | None => raise (SoftwareRootNotFound n)
  | Some root => mret root
  end.

(** [_get_software_multiple(names, function)] for a list of names. *)
Fixpoint _get_software_multiple {A} (names : list pyval)
    (function : pyval -> M A) : M (list A) :=
  match names with
  | [] => mret []
  | n :: names' =>
      r ← function n;
      res ← _get_software_multiple names' function;
      mret (r :: res)
  end.

Definition get_software_root (names : list pyval) : M (list string) :=
  _get_software_multiple names _get_software_root.

(** ** [_toolchain_exists] *)

(** [not x] for an optional string argument. *)
Definition or_default (x : option string) (d : string) : string :=
  match x with
  | Some s => if bool_decide (s = "") then d else s
  | None => d
  end.

Definition _toolchain_exists (name0 version0 : option string) : M bool :=
  self ← get_self;
  let name1 := or_default name0 (name self) in
  let version1 := or_default version0 (version self) in
  if bool_decide (name self = DUMMY_NAME)
  then mret true
  else Modules_exists (PyStr name1) (PyStr version1).

(** ** [add_dependencies] *)

(** The body of the loop of [add_dependencies]. *)
Definition add_dependency (dep : dict) : M unit :=
  (if bool_decide (is_Some (dep !! "tk"))
   then raise (LegacyTkFound dep) else mret tt);;
  dep ← (if negb (bool_decide (is_Some (dep !! "tc")))
         then tc ← get_dependency_version dep; mret (<["tc" := tc]> dep)
         else mret dep);
  dname ← getitem dep "name";
  dtc ← getitem dep "tc";
  found ← Modules_exists dname dtc;
  if negb found
  then raise (NoModuleFoundForDependency dname dtc)
  else modify_self (fun t => set_dependencies (dependencies t ++ [dep]) t).

Definition add_dependencies (deps : list dict) : M unit :=
  for_each deps add_dependency.

(** ** [is_required], [set_variables], [generate_vars] *)

(** The default [is_required] of the base class. *)
Definition Toolchain_is_required (n : string) : bool := true.

Definition set_variables : M unit :=
  self ← get_self;
  if truthy (option_method (options self) (opts (options self))
                           "packed-linker-options")
  then modify_self (fun t =>
         set_variables_field
           (tv_packed (VARIABLES_CLASS (cls t)) (variables t)) t)
  else mret tt.

(** [d[k] = v] on a dict kept in insertion order. *)
Fixpoint dict_set (k v : string) (d : list (string * string))
    : list (string * string) :=
  match d with
  | [] => [(k, v)]
  | (k', v') :: d' =>
      if bool_decide (k' = k) then (k, v) :: d' else (k', v') :: dict_set k v d'
  end.

Definition generate_vars : M unit :=
  modify_self (fun t =>
    set_vars
      (Some (foldl (fun d kv => dict_set (fst kv) (snd kv) d) []
                   (tv_items (VARIABLES_CLASS (cls t)) (variables t)))) t).

(** ** [_add_dependency_variables] *)

(** [for p in extra: if not p in paths: paths.append(p)], when [extra] is
    not [None]. *)
Definition extend_paths (paths : list string) (extra : option (list string))
    : list string :=
  match extra with
  | None => paths
  | Some ps =>
      foldl (fun acc p => if bool_decide (p ∈ acc) then acc else (acc ++ [p])%list)
            paths ps
  end.

(** The first lines of [_add_dependency_variables]: the pair
    [(cpp_paths, ld_paths)]. *)
Definition dependency_paths (o : ToolchainOptions)
    (cpp ld : option (list string)) : list string * list string :=
  let cpp_paths := ["include"] in
  let ld_paths := ["lib"] in
  let ld_paths :=
    if negb (truthy (default PyNone (opts o !! "32bit")))
    then "lib64" :: ld_paths else ld_paths in
  (extend_paths cpp_paths cpp, extend_paths ld_paths ld).

Fixpoint getitems (ds : list dict) (key : string) : M (list pyval) :=
  match ds with
  | [] => mret []
  | d :: ds' =>
      v ← getitem d key;
      vs ← getitems ds' key;
      mret (v :: vs)
  end.

Definition _add_dependency_variables (names : option (list pyval))
    (cpp ld : option (list string)) : M unit :=
  self ← get_self;
  let cpp_paths := fst (dependency_paths (options self) cpp ld) in
  let ld_paths := snd (dependency_paths (options self) cpp ld) in
  let deps :=
    match names with
    | None | Some [] => dependencies self
    | Some ns =>
        (fun n => {["name" := n]}) <$> filter (fun n => n ≠ PyNone) ns
    end in
  dnames ← getitems deps "name";
  roots ← get_software_root dnames;
  modify_self (fun t =>
    set_variables_field
      (foldl (fun v root =>
                tv_append_subdirs (VARIABLES_CLASS (cls t)) "LDFLAGS" root ld_paths
                  (tv_append_subdirs (VARIABLES_CLASS (cls t)) "CPPFLAGS" root
                                     cpp_paths v))
             (variables t) roots) t).

(** ** [_setenv_variables] *)

(** The [onlymod] / [donotset] argument: [None], a boolean, a string or a
    list of names. *)
Inductive pyarg :=
| ArgNone
| ArgBool (b : bool)
| ArgStr (s : string)
| ArgList (l : list string).

(** The loop of [_setenv_variables] over [self.vars.items()]. *)
Definition setenv_items (donotsetlist : list string)
    (items : list (string * string)) : M unit :=
  for_each items (fun kv =>
    let key := fst kv in
    let val := snd kv in
    if bool_decide (key ∈ donotsetlist)
    then mret tt
    else
      setvar key val;;
      setvar ("EBVAR" +:+ key) val).

Definition _setenv_variables (donotset : pyarg) : M unit :=
  donotsetlist ← match donotset with
                 | ArgStr _ => raise CommaSeparatedListDeprecated
                 | ArgList l => mret l
                 | _ => mret []
                 end;
  self ← get_self;
  match vars self with
  | None => raise AttributeError
  | Some items => setenv_items donotsetlist items
  end.

(** ** [prepare] *)

(** [x.endswith(suffix)] *)
Definition endswith (x suffix : string) : bool :=
  String.prefix (String.rev suffix) (String.rev x).

(** [set([y for x in dir(self) if x.endswith('_MODULE_NAME')
             for y in eval("self.%s" % x)])] *)
Definition module_name_elements (t : Toolchain) : gset string :=
  list_to_set
    (flat_map snd
       (filter (fun a => endswith (fst a) "_MODULE_NAME" = true) (attrs (cls t)))).

(** The declared element names after filtering out the toolchain's own
    name and the optional elements the module does not use. *)
Definition toolchain_elements_mod_names (t : Toolchain)
    (toolchain_module_deps : gset string) : gset string :=
  let elems := module_name_elements t in
  let elems := filter (fun x => x ≠ name t) elems in
  filter (fun m => is_required (cls t) m = true ∨ m ∈ toolchain_module_deps)
         elems.

Definition prepare (onlymod : pyarg) : M unit :=
  found ← _toolchain_exists None None;
  self ← get_self;
  (if negb found
   then raise (NoModuleFoundForToolchain (name self) (version self))
   else mret tt);;
  if bool_decide (name self = DUMMY_NAME)
  then
    if bool_decide (version self = DUMMY_VERSION)
    then log_info "prepare: toolchain dummy mode, dummy version; not loading dependencies"
    else
      log_info "prepare: toolchain dummy mode and loading dependencies";;
      Modules_add_module (ModDep <$> dependencies self);;
      Modules_load
  else
    Modules_add_module [ModTuple (name self) (version self)];;
    Modules_add_module (ModDep <$> dependencies self);;
    Modules_load;;
    tds ← Modules_dependencies_for (name self) (version self) 0;
    modify_self (set_toolchain_dependencies tds);;
    let toolchain_module_deps : gset string := list_to_set (td_name <$> tds) in
    let elems := toolchain_elements_mod_names self toolchain_module_deps in
    (if bool_decide (toolchain_module_deps = elems)
     then log_info "List of toolchain dependency modules and toolchain definition match!"
     else log_error "List of toolchain dependency modules and toolchain definition do not match");;
    set_variables;;
    match onlymod with
    | ArgBool true => generate_vars
    | _ =>
        _add_dependency_variables None None None;;
        generate_vars;;
        _setenv_variables onlymod
    end.

End Toolchain.

(** ** Further methods of the class *)

Section ToolchainMore.

Context {V : Type}.

(** [_is_toolchain_for(cls, name)]; [hasattr(cls, 'NAME')] holds for every
    class, [Toolchain] defining [NAME].  The result is [True] or [False]
    for a name, and [cls.NAME] itself (a string or [None]) without one. *)
Definition _is_toolchain_for (c : @ToolchainClass V) (name0 : option string)
    : pyval :=
  if match name0 with
     | Some n => negb (bool_decide (n = ""))
     | None => false
     end
  then PyBool (bool_decide (NAME c = name0))
  else match NAME c with
       | Some n => PyStr n
       | None => PyNone
       end.

(** The exception of [set_options]: "set_options: undefined toolchain
    option %s specified (possible names %s)". *)
Inductive set_options_exn :=
| UndefinedToolchainOption (opt : string) (possible : gset string).

Definition set_opts (o : dict) (t : @Toolchain V) : Toolchain :=
  mkToolchain (cls t) (name t) (version t)
              (mkToolchainOptions o (option_method (options t)))
              (variables t) (vars t) (dependencies t)
              (toolchain_dependencies t).

(** [set_options(options)], on the items of [options] in the order the
    dict iterates.  The method touches [self.options] only: it is a
    function on the toolchain object, and returns the exception it raised,
    if any, with the object as the exception left it. *)
Fixpoint set_options (options0 : list (string * pyval)) (t : @Toolchain V)
    : option set_options_exn * Toolchain :=
  match options0 with
  | [] => (None, t)
  | (opt, v) :: options' =>
      if bool_decide (is_Some (opts (options t) !! opt))
      then set_options options' (set_opts (<[opt := v]> (opts (options t))) t)
      else (Some (UndefinedToolchainOption opt (dom (opts (options t)))), t)
  end.

(** The last steps of [prepare], from [set_variables] on (the lines after
    the consistency check). *)
Definition prepare_variables (onlymod : pyarg) : @M V unit :=
  set_variables;;
  match onlymod with
  | ArgBool true => generate_vars
  | _ =>
      _add_dependency_variables None None None;;
      generate_vars;;
      _setenv_variables onlymod
  end.

End ToolchainMore.

(** ** Notions used in the statements *)

(** The toolchain suffix [get_dependency_version] computes for a toolchain
    named [n] with version [v]: the value of its local [toolchain] after
    the check for a toolchain-independent dependency. *)
Definition toolchain_suffix_of (n v : string) (dep : dict) : string :=
  if match dep !! DUMMY_NAME with Some x => truthy x | None => false end
  then ""
  else if negb (bool_decide (n = DUMMY_NAME)) then "-" +:+ n +:+ "-" +:+ v
       else if negb (bool_decide (v = DUMMY_VERSION)) then v else "".

(** The [(key, value)] pairs [_setenv_variables] passes to [setvar] for
    the items of [self.vars] and the list of names not to set: per item,
    the canonical name and the alias, or nothing. *)
Definition setenv_pairs (donotsetlist : list string)
    (items : list (string * string)) : list (string * string) :=
  flat_map (fun kv =>
              if bool_decide (fst kv ∈ donotsetlist) then []
              else [(fst kv, snd kv); ("EBVAR" +:+ fst kv, snd kv)])
           items.

(** The world after a sequence of [setvar] calls. *)
Definition world_setvars (kvs : list (string * string)) (w : World) : World :=
  foldl (fun w kv => world_setvar (fst kv) (snd kv) w) w kvs.

(** What [add_dependencies] appends for an input descriptor [dep]: [dep]
    itself, or [dep] with its [tc] key set when it had none; in either case
    with a [name] and a [tc] the module system [m] knows. *)
Definition registered (m : Modules) (dep dep' : dict) : Prop :=
  (dep' = dep ∨ ∃ tc, dep !! "tc" = None ∧ dep' = <["tc" := tc]> dep)
  ∧ ∃ n tc, dep' !! "name" = Some n ∧ dep' !! "tc" = Some tc
            ∧ mod_exists m n tc = true.

(** The calls that only ask the module system a question. *)
Definition is_query (c : call) : bool :=
  match c with
  | Call_exists _ _ | Call_available _ _ => true
  | _ => false
  end.

Definition is_setvar (c : call) : bool :=
  match c with
  | Call_setvar _ _ => true
  | _ => false
  end.

(** ** Stepping through a method *)

(** Unfolds the monad and its primitive operations, leaving the methods
    folded. *)
Ltac run :=
  cbv [mbind M_bind mret M_ret get_self get_world modify_self modify_world
       raise lift getitem log_info log_error setvar Modules_exists
       Modules_available Modules_add_module Modules_load
       Modules_dependencies_for fst snd].

(** ** Concrete collaborators and inputs *)

Module Examples.

(** Modelled from the spec: a variable container
    ([easybuild.tools.toolchain.toolchainvariables] is not under [src/])
    for the examples, an ordered list of names with their fragments.
    [append_subdirs] "appends <root>/<subdir> for every combination" and
    "never duplicate[s] an existing fragment"; [str] renders the fragments
    "to a single flattened string", here joined with a space. *)
Definition append_subdirs (key root : string) (subdirs : list string)
    (v : list (string * list string)) : list (string * list string) :=
  foldl (fun acc sd =>
           let frag := root +:+ "/" +:+ sd in
           match list_find (fun kv => fst kv = key) acc with
           | Some (i, (k, fr)) =>
               if bool_decide (frag ∈ fr) then acc
               else <[i := (k, (fr ++ [frag])%list)]> acc
           | None => (acc ++ [(key, [frag])])%list
           end) v subdirs.

Definition simple_variables : ToolchainVariables (list (string * list string)) :=
  mkToolchainVariables _ []
    (fun v => (fun kv => (fst kv, String.concat " " (snd kv))) <$> v)
    append_subdirs (fun v => v).

Definition plain_options : ToolchainOptions :=
  mkToolchainOptions ∅ (fun d k => default PyNone (d !! k)).

Definition base : ToolchainClass :=
  mkToolchainClass None None plain_options simple_variables []
                   Toolchain_is_required.

(** A class with one declared element the module does not report. *)
Definition goalf : ToolchainClass :=
  mkToolchainClass (Some "goalf") None plain_options simple_variables
                   [("COMPILER_MODULE_NAME", ["GCC"]);
                    ("MPI_MODULE_NAME", ["OpenMPI"])]
                   Toolchain_is_required.

(** A module system that knows GCC, goalf, OpenMPI 1.6 and two zlib
    builds, and reports GCC as the only dependency of goalf. *)
Definition host : Modules :=
  mkModules
    (fun n v =>
       bool_decide (n = PyStr "OpenMPI" ∧ v = PyStr "1.6-GCC-4.7")
       || bool_decide (n = PyStr "GCC") || bool_decide (n = PyStr "goalf"))
    (fun n s =>
       if bool_decide (n = PyStr "zlib")
       then [("zlib", "1.2.5" +:+ s); ("zlib", "1.2.7" +:+ s)] else [])
    (fun n _ _ =>
       if bool_decide (n = "goalf")
       then [mkToolchainDependency "GCC" "4.7"] else [])
    (fun n => match n with PyStr s => Some ("/opt/" +:+ s) | _ => None end).

Definition world0 : World := mkWorld host [] ∅ [].

Definition gcc47 : Toolchain :=
  mkToolchain base "GCC" "4.7" plain_options [] None [] [].

Definition dummy_dummy : Toolchain :=
  mkToolchain base DUMMY_NAME DUMMY_VERSION plain_options [] None [] [].

Definition dummy_1_0 : Toolchain :=
  mkToolchain base DUMMY_NAME "1.0" plain_options [] None [] [].

Definition openmpi : dict :=
  <["name" := PyStr "OpenMPI"]> (<["version" := PyStr "1.6"]> ∅).

(** [openmpi] as [add_dependencies] registers it on GCC 4.7. *)
Definition openmpi_gcc47 : dict := <["tc" := PyStr "1.6-GCC-4.7"]> openmpi.

(** A goalf toolchain with one registered dependency. *)
Definition goalf1_openmpi : Toolchain :=
  mkToolchain goalf "goalf" "1.1.0" plain_options [] None [openmpi_gcc47] [].

(** A toolchain with generated variables. *)
Definition gcc47_vars : Toolchain :=
  mkToolchain base "GCC" "4.7" plain_options []
              (Some [("CC", "gcc"); ("CFLAGS", "-O2")]) [] [].

Definition zlib : dict := {["name" := PyStr "zlib"]}.

Definition legacy : dict :=
  <["name" := PyStr "OpenMPI"]> (<["tk" := PyStr "1.6"]> ∅).

(** A dependency marked independent of the toolchain. *)
Definition openmpi_independent : dict := <["dummy" := PyBool true]> openmpi.

(** A dependency the module system has no build of. *)
Definition hwloc : dict := {["name" := PyStr "hwloc"]}.

(** Descriptors that are not well formed. *)
Definition nameless : dict := ∅.

Definition zlib_version_None : dict := <["version" := PyNone]> zlib.

(** A toolchain the module system has no module for. *)
Definition intel2013 : Toolchain :=
  mkToolchain base "intel" "2013" plain_options [] None [] [].

(** A toolchain with two options. *)
Definition gcc47_options : Toolchain :=
  mkToolchain base "GCC" "4.7"
    (mkToolchainOptions (<["32bit" := PyBool false]> (<["pic" := PyBool false]> ∅))
                        (fun d k => default PyNone (d !! k)))
    [] None [] [].

End Examples.

(** * Properties *)

Section Properties.

Context {V : Type}.

Implicit Types (t : @Toolchain V) (w : World) (dep : dict).

(** ** Binding a known outcome *)

Lemma bind_Ok {A B} (m : @M V A) (f : A -> @M V B) s a s' :
  m s = (Ok a, s') -> (m ≫= f) s = f a s'.
Proof. intros H. unfold mbind, M_bind. by rewrite H. Qed.

Lemma bind_Raise {A B} (m : @M V A) (f : A -> @M V B) s e s' :
  m s = (Raise e, s') -> (m ≫= f) s = (Raise e, s').
Proof. intros H. unfold mbind, M_bind. by rewrite H. Qed.

(** [get_dependency_version] in terms of [toolchain_suffix_of]. *)
Lemma get_dependency_version_eq t w dep :
  get_dependency_version dep (t, w) =
  match dep !! "version" with
  | Some v =>
      (match str_join [v; PyStr (toolchain_suffix_of (name t) (version t) dep);
                       default (PyStr "") (dep !! "suffix")] with
       | Ok s => Ok (PyStr s)
       | Raise e => Raise e
       end, (t, w))
  | None =>
      match str_join [PyStr (toolchain_suffix_of (name t) (version t) dep);
                      default (PyStr "") (dep !! "suffix")] with
      | Raise e => (Raise e, (t, w))
      | Ok sfx =>
          match dep !! "name" with
          | None => (Raise (KeyError "name"), (t, w))
          | Some n =>
              (if bool_decide (0 < length (mod_available (modules w) n sfx))
               then Ok PyNone
               else Raise (NoToolchainVersionForDependency n sfx),
               (t, world_call (Call_available n sfx) w))
          end
      end
  end.
Proof.
  unfold toolchain_suffix_of.
  cbv [get_dependency_version mbind M_bind get_self lift getitem
       Modules_available modify_world get_world mret M_ret raise fst snd].
  set (ts := if match dep !! DUMMY_NAME with
                | Some x => truthy x | None => false end
             then ""
             else if negb (bool_decide (name t = DUMMY_NAME))
                  then "-" +:+ name t +:+ "-" +:+ version t
                  else if negb (bool_decide (version t = DUMMY_VERSION))
                       then version t else "").
  destruct (dep !! "version") as [v|].
  - destruct (str_join _); reflexivity.
  - destruct (str_join _) as [sfx|e]; [|reflexivity].
    destruct (dep !! "name") as [n|]; [|reflexivity].
    cbn [modules world_call].
    case_bool_decide as Hlen; [|reflexivity].
    destruct (last (mod_available (modules w) n sfx)) eqn:Hl; [reflexivity|].
    apply last_None in Hl. rewrite Hl in Hlen. cbn in Hlen. lia.
Qed.

(** With an explicit version, the result is the join of version, toolchain
    suffix and custom suffix, and the state is left as it was. *)
Lemma get_dependency_version_explicit t w dep v :
  dep !! "version" = Some v ->
  get_dependency_version dep (t, w) =
    (match str_join [v; PyStr (toolchain_suffix_of (name t) (version t) dep);
                     default (PyStr "") (dep !! "suffix")] with
     | Ok s => Ok (PyStr s)
     | Raise e => Raise e
     end, (t, w)).
Proof. intros Hv. by rewrite get_dependency_version_eq, Hv. Qed.

(** Without a version, the result depends on the list of matches only
    through its being empty or not. *)
Lemma get_dependency_version_unversioned t w dep n sfx :
  dep !! "version" = None ->
  dep !! "name" = Some n ->
  str_join [PyStr (toolchain_suffix_of (name t) (version t) dep);
            default (PyStr "") (dep !! "suffix")] = Ok sfx ->
  get_dependency_version dep (t, w) =
    (if bool_decide (0 < length (mod_available (modules w) n sfx))
     then Ok PyNone
     else Raise (NoToolchainVersionForDependency n sfx),
     (t, world_call (Call_available n sfx) w)).
Proof. intros Hv Hn Hj. by rewrite get_dependency_version_eq, Hv, Hj, Hn. Qed.

(** C4: for a toolchain named GCC with version 4.7, the dependency
    [{name: "OpenMPI", version: "1.6"}] (no [tc], no suffix, not marked
    toolchain-independent) resolves to exactly ["1.6-GCC-4.7"], and the
    toolchain and the world are left as they were. *)
Theorem get_dependency_version_openmpi_gcc
    (c : @ToolchainClass V) o vs gv ds tds w :
  get_dependency_version Examples.openmpi
      (mkToolchain c "GCC" "4.7" o vs gv ds tds, w)
  = (Ok (PyStr "1.6-GCC-4.7"), (mkToolchain c "GCC" "4.7" o vs gv ds tds, w)).
Proof.
  rewrite (get_dependency_version_explicit _ _ _ (PyStr "1.6")); reflexivity.
Qed.

(** With a string version and a string (or no) suffix the result is an
    identifier. *)
Lemma get_dependency_version_explicit_str t w dep v :
  dep !! "version" = Some (PyStr v) ->
  get_dependency_version dep (t, w) =
    (match default (PyStr "") (dep !! "suffix") with
     | PyStr sfx =>
         Ok (PyStr (v +:+ toolchain_suffix_of (name t) (version t) dep
                      +:+ sfx +:+ ""))
     | _ => Raise TypeError
     end, (t, w)).
Proof.
  intros Hv. rewrite (get_dependency_version_explicit _ _ _ _ Hv). cbn.
  by destruct (default (PyStr "") (dep !! "suffix")).
Qed.

(** C8: for a dependency with an explicit version, resolution is pure and
    deterministic: two calls with the same dependency on toolchains with
    the same name and version give the same result, whatever the rest of
    the toolchains and whatever the worlds (module systems included), and
    either call leaves toolchain and world as they were, so that no call
    to the module system is recorded. *)
Theorem get_dependency_version_deterministic t1 t2 w1 w2 dep :
  name t1 = name t2 ->
  version t1 = version t2 ->
  is_Some (dep !! "version") ->
  fst (get_dependency_version dep (t1, w1))
    = fst (get_dependency_version dep (t2, w2))
  ∧ snd (get_dependency_version dep (t1, w1)) = (t1, w1)
  ∧ snd (get_dependency_version dep (t2, w2)) = (t2, w2).
Proof.
  intros Hn Hv [v Hdep].
  rewrite !(get_dependency_version_explicit _ _ _ _ Hdep), Hn, Hv.
  done.
Qed.

(** ** [prepare] on the dummy toolchain *)

(** C2: on a toolchain whose name and version are both the dummy sentinel
    (and on which no variables were generated yet, as [__init__] leaves
    it), [prepare] returns normally having only logged one line: no call
    to the module system is recorded (so no [add_module] and no [load]),
    the environment is as before, and the variable set is empty:
    [self.vars] is still [None] and the variable container is untouched. *)
Theorem prepare_dummy_dummy t w onlymod :
  name t = DUMMY_NAME ->
  version t = DUMMY_VERSION ->
  vars t = None ->
  prepare onlymod (t, w)
    = (Ok tt,
       (t, world_log INFO
             "prepare: toolchain dummy mode, dummy version; not loading dependencies"
             w))
  ∧ calls (snd (snd (prepare onlymod (t, w)))) = calls w
  ∧ environ (snd (snd (prepare onlymod (t, w)))) = environ w
  ∧ vars (fst (snd (prepare onlymod (t, w)))) = None
  ∧ variables (fst (snd (prepare onlymod (t, w)))) = variables t.
Proof.
  intros Hn Hv Hvars.
  assert (H : prepare onlymod (t, w)
    = (Ok tt,
       (t, world_log INFO
             "prepare: toolchain dummy mode, dummy version; not loading dependencies"
             w))).
  { unfold prepare, _toolchain_exists. run.
    rewrite !(bool_decide_eq_true_2 _ Hn), !(bool_decide_eq_true_2 _ Hv).
    reflexivity. }
  rewrite H. cbn [fst snd]. by destruct t.
Qed.

(** C10: on a toolchain with the dummy name and another version, [prepare]
    hands the registered dependencies to the module system, loads them and
    returns: the recorded calls are exactly [add_module(self.dependencies)]
    and [load()] (no toolchain module is added, no [dependencies_for]
    query and no [setvar] is made), the log gets the one info line (no
    record of a consistency check), the toolchain object is unchanged (so
    [self.vars] remains [None] and the variables are untouched) and the
    environment is as before. *)
Theorem prepare_dummy_name_loads_dependencies t w onlymod :
  name t = DUMMY_NAME ->
  version t ≠ DUMMY_VERSION ->
  vars t = None ->
  prepare onlymod (t, w)
    = (Ok tt,
       (t, mkWorld (modules w)
             (calls w ++ [Call_add_module (ModDep <$> dependencies t);
                          Call_load])
             (environ w)
             (log w ++ [(INFO, "prepare: toolchain dummy mode and loading dependencies")])))
  ∧ vars (fst (snd (prepare onlymod (t, w)))) = None
  ∧ environ (snd (snd (prepare onlymod (t, w)))) = environ w.
Proof.
  intros Hn Hv Hvars.
  assert (H : prepare onlymod (t, w)
    = (Ok tt,
       (t, mkWorld (modules w)
             (calls w ++ [Call_add_module (ModDep <$> dependencies t);
                          Call_load])
             (environ w)
             (log w ++ [(INFO, "prepare: toolchain dummy mode and loading dependencies")])))).
  { unfold prepare, _toolchain_exists. run.
    rewrite !(bool_decide_eq_true_2 _ Hn), !(bool_decide_eq_false_2 _ Hv).
    cbv [world_call world_log modules calls environ log].
    destruct w as [m c e l]. cbn. by rewrite <- app_assoc. }
  rewrite H. cbn [fst snd environ]. done.
Qed.

(** ** The subdirectory lists of [_add_dependency_variables] *)

Lemma extend_paths_elem x paths extra :
  x ∈ paths -> x ∈ extend_paths paths extra.
Proof.
  destruct extra as [ps|]; [|done]. cbn. revert paths.
  induction ps as [|p ps IH]; intros paths Hx; [done|].
  cbn. apply IH. case_bool_decide; [done|]. apply elem_of_app. by left.
Qed.

(** C6: without extra subdirectories, the include list is [["include"]]
    and the library list is [["lib64"; "lib"]] when the 32bit option is
    unset (absent or false) and [["lib"]] when it is set; whatever the
    option and the extra subdirectories, [lib] is in the library list and
    [include] in the include list. *)
Theorem dependency_paths_32bit (o : ToolchainOptions) :
  dependency_paths o None None
    = (["include"],
       if truthy (default PyNone (opts o !! "32bit"))
       then ["lib"] else ["lib64"; "lib"])
  ∧ ∀ cpp ld,
      "lib" ∈ snd (dependency_paths o cpp ld)
      ∧ "include" ∈ fst (dependency_paths o cpp ld).
Proof.
  split.
  - unfold dependency_paths. cbn.
    by destruct (truthy (default PyNone (opts o !! "32bit"))).
  - intros cpp ld. unfold dependency_paths. cbn [fst snd].
    split; apply extend_paths_elem.
    + destruct (negb _); set_solver.
    + set_solver.
Qed.

(** ** [_setenv_variables] *)

Lemma setenv_items_run skip items t w :
  setenv_items skip items (t, w)
    = (Ok tt, (t, world_setvars (setenv_pairs skip items) w)).
Proof.
  unfold setenv_items.
  revert w. induction items as [|[k v] items IH]; intros w; [done|].
  cbn [for_each]. unfold setenv_pairs, world_setvars in *.
  cbn [flat_map fst snd]. cbv zeta. case_bool_decide.
  - run. apply IH.
  - run. rewrite IH. reflexivity.
Qed.

Lemma world_setvars_calls kvs w :
  calls (world_setvars kvs w)
    = calls w ++ ((fun kv => Call_setvar (fst kv) (snd kv)) <$> kvs).
Proof.
  revert w. induction kvs as [|kv kvs IH]; intros w.
  - cbn. by rewrite app_nil_r.
  - unfold world_setvars in *. cbn [foldl fmap list_fmap].
    rewrite IH. cbn. by rewrite <- app_assoc.
Qed.

Lemma world_setvars_frame kvs w :
  modules (world_setvars kvs w) = modules w
  ∧ log (world_setvars kvs w) = log w.
Proof.
  revert w. induction kvs as [|kv kvs IH]; intros w; [done|].
  unfold world_setvars in *. cbn [foldl]. by destruct (IH (world_setvar kv.1 kv.2 w)).
Qed.

Lemma _setenv_variables_run t w donotset items :
  vars t = Some items ->
  (∀ s, donotset ≠ ArgStr s) ->
  _setenv_variables donotset (t, w)
  = (Ok tt,
     (t, world_setvars
           (setenv_pairs (match donotset with ArgList l => l | _ => [] end)
                         items) w)).
Proof.
  intros Hvars Hstr.
  destruct donotset as [|b|s|l]; try (by destruct (Hstr s));
    unfold _setenv_variables; run; rewrite Hvars; apply setenv_items_run.
Qed.

(** C7: [_setenv_variables] on the generated [vars] goes through the items
    in order and emits, per item, either the two calls
    [setvar(key, val)] and [setvar("EBVAR" + key, val)], with the same
    value (the key is not in the list of names not to set), or no call at
    all (the key is in that list): the recorded calls are the
    concatenation of these blocks, so that no canonical name is emitted
    without its alias and no alias without its canonical name.  A string
    argument is rejected before any call is made. *)
Theorem setenv_variables_emits_pairs t w donotset items :
  vars t = Some items ->
  match donotset with
  | ArgStr _ =>
      _setenv_variables donotset (t, w)
        = (Raise CommaSeparatedListDeprecated, (t, w))
  | _ =>
      let donotsetlist :=
        match donotset with ArgList l => l | _ => [] end in
      fst (_setenv_variables donotset (t, w)) = Ok tt
      ∧ fst (snd (_setenv_variables donotset (t, w))) = t
      ∧ calls (snd (snd (_setenv_variables donotset (t, w))))
        = calls w ++
          flat_map (fun kv =>
                      if bool_decide (fst kv ∈ donotsetlist) then []
                      else [Call_setvar (fst kv) (snd kv);
                            Call_setvar ("EBVAR" +:+ fst kv) (snd kv)])
                   items
  end.
Proof.
  intros Hvars.
  assert (Hflat : ∀ skip,
    (fun kv => Call_setvar (fst kv) (snd kv)) <$> setenv_pairs skip items
    = flat_map (fun kv =>
                  if bool_decide (fst kv ∈ skip) then []
                  else [Call_setvar (fst kv) (snd kv);
                        Call_setvar ("EBVAR" +:+ fst kv) (snd kv)]) items).
  { intros skip. unfold setenv_pairs.
    induction items as [|kv items' IH] in |- *; [done|].
    cbn [flat_map]. rewrite fmap_app. f_equal; [|apply IH].
    by case_bool_decide. }
  destruct donotset as [|b|s|l]; cbv zeta;
    unfold _setenv_variables; run; rewrite ?Hvars;
    rewrite ?setenv_items_run; cbn [fst snd];
    rewrite ?world_setvars_calls, ?Hflat; done.
Qed.

(** ** [add_dependencies] *)

Lemma for_each_app {A} (l1 l2 : list A) (body : A -> @M V unit) s :
  for_each (l1 ++ l2) body s
  = match for_each l1 body s with
    | (Ok _, s1) => for_each l2 body s1
    | (Raise e, s1) => (Raise e, s1)
    end.
Proof.
  revert s. induction l1 as [|x l1 IH]; intros s; [done|].
  cbn [for_each app]. unfold mbind, M_bind.
  destruct (body x s) as [[[]|e] s1]; [apply IH|done].
Qed.

Lemma get_dependency_version_frame t w dep :
  fst (snd (get_dependency_version dep (t, w))) = t
  ∧ modules (snd (snd (get_dependency_version dep (t, w)))) = modules w.
Proof.
  rewrite get_dependency_version_eq.
  destruct (dep !! "version"); [done|].
  destruct (str_join _); [|done].
  by destruct (dep !! "name").
Qed.

(** One iteration of the loop of [add_dependencies]: it raises and leaves
    the toolchain as it was, or appends one registered descriptor. *)
Lemma add_dependency_step dep t w :
  (∃ e w1, add_dependency dep (t, w) = (Raise e, (t, w1))
           ∧ modules w1 = modules w)
  ∨ (∃ dep' w1,
       registered (modules w) dep dep' ∧ modules w1 = modules w
       ∧ add_dependency dep (t, w)
         = (Ok tt, (set_dependencies (dependencies t ++ [dep']) t, w1))).
Proof.
  unfold add_dependency. run.
  case_bool_decide as Htk.
  { left. by exists (LegacyTkFound dep), w. }
  case_bool_decide as Htc; cbn [negb].
  - destruct Htc as [tc Htc]. rewrite Htc.
    destruct (dep !! "name") as [n|] eqn:Hn; [|left; by eexists _, w].
    cbn [modules world_call].
    destruct (mod_exists (modules w) n tc) eqn:Hex; cbn [negb].
    + right. exists dep, (world_call (Call_exists n tc) w).
      split; [|done]. split; [by left|]. by exists n, tc.
    + left. by eexists _, _.
  - destruct (get_dependency_version_frame t w dep) as [Ht Hm].
    destruct (get_dependency_version dep (t, w)) as [[tc|e] [t1 w1]];
      cbn [fst snd] in Ht, Hm; subst t1; [|left; by eexists _, _].
    assert (Hnone : dep !! "tc" = None).
    { destruct (dep !! "tc") eqn:E; [|done]. exfalso. apply Htc. by eexists. }
    rewrite lookup_insert_eq, lookup_insert_ne by done.
    destruct (dep !! "name") as [n|] eqn:Hn; [|left; by eexists _, w1].
    cbn [modules world_call]. rewrite Hm.
    destruct (mod_exists (modules w) n tc) eqn:Hex; cbn [negb].
    + right. exists (<["tc" := tc]> dep), (world_call (Call_exists n tc) w1).
      split; [|done]. split; [right; by exists tc|].
      exists n, tc. rewrite lookup_insert_eq, lookup_insert_ne by done. done.
    + left. by eexists _, _.
Qed.

(** A successful [add_dependencies] appends one registered descriptor per
    input descriptor, in the order of the input. *)
Lemma add_dependencies_appends deps t w t' w' :
  add_dependencies deps (t, w) = (Ok tt, (t', w')) ->
  modules w' = modules w
  ∧ ∃ added,
      dependencies t' = dependencies t ++ added
      ∧ Forall2 (registered (modules w)) deps added.
Proof.
  revert t w. induction deps as [|dep deps IH]; intros t w Hrun.
  - cbn in Hrun. injection Hrun as <- <-. split; [done|].
    exists []. by rewrite app_nil_r.
  - unfold add_dependencies in Hrun. cbn [for_each] in Hrun.
    destruct (add_dependency_step dep t w)
      as [(e & w1 & He & _)|(dep' & w1 & Hreg & Hm & Hstep)].
    { rewrite (bind_Raise _ _ _ _ _ He) in Hrun. discriminate. }
    rewrite (bind_Ok _ _ _ _ _ Hstep) in Hrun.
    apply IH in Hrun as (Hm' & added & Hdeps & Hall).
    split; [congruence|].
    exists (dep' :: added). split.
    + rewrite Hdeps. cbn. by rewrite <- app_assoc.
    + constructor; [done|]. by rewrite <- Hm.
Qed.

(** C3: when [add_dependencies] accepts a list of dependencies, the
    toolchain's dependency list is the former list followed by one
    descriptor per input descriptor, in the order of the input: the input
    descriptor itself, or the input descriptor with its [tc] key set when
    it had none.  Each appended descriptor has a [tc] key, and the module
    system answered that its [(name, tc)] pair exists. *)
Theorem add_dependencies_registers deps t w t' w' :
  add_dependencies deps (t, w) = (Ok tt, (t', w')) ->
  ∃ added,
    dependencies t' = dependencies t ++ added
    ∧ Forall2 (fun dep dep' =>
                 (dep' = dep
                  ∨ ∃ tc, dep !! "tc" = None ∧ dep' = <["tc" := tc]> dep)
                 ∧ ∃ n tc, dep' !! "name" = Some n ∧ dep' !! "tc" = Some tc
                           ∧ mod_exists (modules w) n tc = true)
              deps added.
Proof. intros H. by apply add_dependencies_appends in H as [_ ?]. Qed.

Lemma add_dependency_legacy dep t w :
  is_Some (dep !! "tk") ->
  add_dependency dep (t, w) = (Raise (LegacyTkFound dep), (t, w)).
Proof.
  intros Htk. unfold add_dependency. run.
  by rewrite (bool_decide_eq_true_2 _ Htk).
Qed.

Lemma add_dependency_not_found dep t w n tc :
  dep !! "tk" = None ->
  dep !! "name" = Some n ->
  (dep !! "tc" = Some tc
   ∨ (dep !! "tc" = None ∧ fst (get_dependency_version dep (t, w)) = Ok tc)) ->
  mod_exists (modules w) n tc = false ->
  ∃ w1, add_dependency dep (t, w)
        = (Raise (NoModuleFoundForDependency n tc), (t, w1)).
Proof.
  intros Htk Hn Htc Hex. unfold add_dependency. run.
  rewrite bool_decide_eq_false_2 by (rewrite Htk; by intros [? ?]).
  destruct Htc as [Htc|[Htc Hres]].
  - rewrite bool_decide_eq_true_2 by (by eexists). cbn [negb].
    rewrite Hn, Htc. cbn [modules world_call]. rewrite Hex. by eexists.
  - rewrite bool_decide_eq_false_2 by (rewrite Htc; by intros [? ?]).
    cbn [negb].
    destruct (get_dependency_version_frame t w dep) as [Ht Hm].
    destruct (get_dependency_version dep (t, w)) as [[tc'|e] [t1 w1]];
      cbn [fst snd] in Ht, Hm, Hres; subst t1; [|done].
    injection Hres as ->.
    rewrite lookup_insert_eq, lookup_insert_ne, Hn by done.
    cbn [modules world_call]. rewrite Hm, Hex. by eexists.
Qed.

(** C9: [add_dependencies] is not atomic.  When the descriptors [pre] are
    accepted and the next one, [bad], carries the legacy [tk] key, or has
    a [(name, tc)] pair ([tc] given or resolved) the module system does
    not know, the call on [pre ++ bad :: post] raises, and the toolchain
    it leaves behind is the one reached after [pre]: its dependency list
    has grown by one descriptor per element of [pre]. *)
Theorem add_dependencies_not_atomic pre bad post t w t1 w1 :
  add_dependencies pre (t, w) = (Ok tt, (t1, w1)) ->
  (is_Some (bad !! "tk")
   ∨ ∃ n tc,
       bad !! "tk" = None ∧ bad !! "name" = Some n
       ∧ (bad !! "tc" = Some tc
          ∨ (bad !! "tc" = None
             ∧ fst (get_dependency_version bad (t1, w1)) = Ok tc))
       ∧ mod_exists (modules w) n tc = false) ->
  ∃ e w2,
    add_dependencies (pre ++ bad :: post) (t, w) = (Raise e, (t1, w2))
    ∧ (e = LegacyTkFound bad ∨ ∃ n tc, e = NoModuleFoundForDependency n tc)
    ∧ ∃ added,
        dependencies t1 = dependencies t ++ added
        ∧ length added = length pre.
Proof.
  intros Hpre Hbad.
  destruct (add_dependencies_appends _ _ _ _ _ Hpre)
    as (Hm & added & Hdeps & Hall).
  assert (Hlen : length added = length pre)
    by (symmetry; by eapply Forall2_length).
  unfold add_dependencies in *. rewrite for_each_app, Hpre.
  cbn [for_each].
  destruct Hbad as [Htk|(n & tc & Htk & Hn & Htc & Hex)].
  - exists (LegacyTkFound bad), w1.
    rewrite (bind_Raise _ _ _ _ _ (add_dependency_legacy bad t1 w1 Htk)).
    split; [done|]. split; [by left|]. by exists added.
  - rewrite <- Hm in Hex.
    destruct (add_dependency_not_found bad t1 w1 n tc Htk Hn Htc Hex)
      as [w2 Hw2].
    exists (NoModuleFoundForDependency n tc), w2.
    rewrite (bind_Raise _ _ _ _ _ Hw2).
    split; [done|]. split; [right; by exists n, tc|]. by exists added.
Qed.

(** ** [prepare] on a toolchain with a module *)

Lemma getitems_ok (ds : list dict) key vs (s : @State V) :
  Forall2 (fun d v => d !! key = Some v) ds vs ->
  getitems ds key s = (Ok vs, s).
Proof.
  intros H. induction H as [|d v ds vs Hd _ IH]; [done|].
  cbn [getitems]. run. by rewrite Hd, IH.
Qed.

Lemma _get_software_root_ok n r t w :
  mod_get_software_root (modules w) n = Some r ->
  _get_software_root n (t, w) = (Ok r, (t, w)).
Proof. intros H. unfold _get_software_root. run. by rewrite H. Qed.

Lemma get_software_root_ok ns roots t w :
  Forall2 (fun n r => mod_get_software_root (modules w) n = Some r) ns roots ->
  get_software_root ns (t, w) = (Ok roots, (t, w)).
Proof.
  intros H. unfold get_software_root.
  induction H as [|n r ns roots Hn _ IH]; [done|].
  cbn [_get_software_multiple].
  rewrite (bind_Ok _ _ _ _ _ (_get_software_root_ok n r t w Hn)).
  by rewrite (bind_Ok _ _ _ _ _ IH).
Qed.

Lemma set_variables_run t w :
  ∃ v, set_variables (t, w) = (Ok tt, (set_variables_field v t, w)).
Proof.
  unfold set_variables. run. destruct (truthy _); [by eexists|].
  exists (variables t). by destruct t.
Qed.

Lemma _add_dependency_variables_ok t w names roots :
  Forall2 (fun d n => d !! "name" = Some n) (dependencies t) names ->
  Forall2 (fun n r => mod_get_software_root (modules w) n = Some r)
          names roots ->
  _add_dependency_variables None None None (t, w)
  = (Ok tt,
     (set_variables_field
        (foldl (fun v root =>
                  tv_append_subdirs (VARIABLES_CLASS (cls t)) "LDFLAGS" root
                    (snd (dependency_paths (options t) None None))
                    (tv_append_subdirs (VARIABLES_CLASS (cls t)) "CPPFLAGS"
                       root (fst (dependency_paths (options t) None None)) v))
               (variables t) roots) t, w)).
Proof.
  intros Hnames Hroots. unfold _add_dependency_variables.
  unfold mbind at 1. unfold M_bind at 1. unfold get_self at 1. cbn [fst snd].
  rewrite (bind_Ok _ _ _ _ _ (getitems_ok _ _ _ (t, w) Hnames)).
  rewrite (bind_Ok _ _ _ _ _ (get_software_root_ok _ _ t w Hroots)).
  reflexivity.
Qed.

(** C5: on a toolchain that is not the dummy one and whose module exists,
    when the names of the direct dependencies the module system reports
    differ from the filtered declared element names, [prepare] records the
    mismatch as an error record and goes on: provided the later steps have
    what they need ([onlymod] is not a string, every registered dependency
    has a name and a software root), it returns normally, [self.vars]
    holds the variables generated from the final variable container, and,
    unless [onlymod] is [True], the [setvar] calls for these variables
    follow the calls to the module system. *)
Theorem prepare_mismatch_not_fatal t w onlymod names roots :
  name t ≠ DUMMY_NAME ->
  mod_exists (modules w) (PyStr (name t)) (PyStr (version t)) = true ->
  list_to_set
    (td_name <$> mod_dependencies_for (modules w) (name t) (version t) 0)
  ≠ toolchain_elements_mod_names t
      (list_to_set
         (td_name <$> mod_dependencies_for (modules w) (name t) (version t) 0)) ->
  (∀ s, onlymod ≠ ArgStr s) ->
  Forall2 (fun d n => d !! "name" = Some n) (dependencies t) names ->
  Forall2 (fun n r => mod_get_software_root (modules w) n = Some r)
          names roots ->
  fst (prepare onlymod (t, w)) = Ok tt
  ∧ log (snd (snd (prepare onlymod (t, w))))
    = log w ++
      [(ERROR,
        "List of toolchain dependency modules and toolchain definition do not match")]
  ∧ ∃ items,
      vars (fst (snd (prepare onlymod (t, w)))) = Some items
      ∧ items
        = foldl (fun d kv => dict_set (fst kv) (snd kv) d) []
            (tv_items (VARIABLES_CLASS (cls t))
                      (variables (fst (snd (prepare onlymod (t, w))))))
      ∧ calls (snd (snd (prepare onlymod (t, w))))
        = calls w ++
          [Call_exists (PyStr (name t)) (PyStr (version t));
           Call_add_module [ModTuple (name t) (version t)];
           Call_add_module (ModDep <$> dependencies t);
           Call_load;
           Call_dependencies_for (name t) (version t) 0] ++
          match onlymod with
          | ArgBool true => []
          | _ =>
              (fun kv => Call_setvar (fst kv) (snd kv)) <$>
              setenv_pairs (match onlymod with ArgList l => l | _ => [] end)
                           items
          end.
Proof.
  intros Hname Hex Hmis Hstr Hnames Hroots.
  assert (Hrun : ∃ t' w' items,
    prepare onlymod (t, w) = (Ok tt, (t', w'))
    ∧ vars t' = Some items
    ∧ items = foldl (fun d kv => dict_set (fst kv) (snd kv) d) []
                (tv_items (VARIABLES_CLASS (cls t)) (variables t'))
    ∧ log w' = log w ++
        [(ERROR,
          "List of toolchain dependency modules and toolchain definition do not match")]
    ∧ calls w' = calls w ++
          [Call_exists (PyStr (name t)) (PyStr (version t));
           Call_add_module [ModTuple (name t) (version t)];
           Call_add_module (ModDep <$> dependencies t);
           Call_load;
           Call_dependencies_for (name t) (version t) 0] ++
          match onlymod with
          | ArgBool true => []
          | _ =>
              (fun kv => Call_setvar (fst kv) (snd kv)) <$>
              setenv_pairs (match onlymod with ArgList l => l | _ => [] end)
                           items
          end).
  { unfold prepare, _toolchain_exists. run.
    rewrite !(bool_decide_eq_false_2 _ Hname).
    unfold or_default. cbn [modules world_call]. rewrite Hex. cbn [negb].
    rewrite (bool_decide_eq_false_2 _ Hmis).
    set (w1 := world_log _ _ _).
    set (t1 := set_toolchain_dependencies _ t).
    assert (Hcalls1 : calls w1 = calls w ++
          [Call_exists (PyStr (name t)) (PyStr (version t));
           Call_add_module [ModTuple (name t) (version t)];
           Call_add_module (ModDep <$> dependencies t);
           Call_load;
           Call_dependencies_for (name t) (version t) 0]).
    { subst w1. cbn. by rewrite <- !app_assoc. }
    assert (Hlog1 : log w1 = log w ++
        [(ERROR,
          "List of toolchain dependency modules and toolchain definition do not match")])
      by done.
    assert (Hmod1 : modules w1 = modules w) by done.
    clearbody w1.
    destruct (set_variables_run t1 w1) as [v2 Hsv]. rewrite Hsv.
    set (t2 := set_variables_field v2 t1).
    assert (Hdeps2 : dependencies t2 = dependencies t) by done.
    assert (Hcls2 : cls t2 = cls t) by done.
    clearbody t2. clear Hsv.
    rewrite <- Hdeps2 in Hnames. rewrite <- Hmod1 in Hroots.
    pose proof (_add_dependency_variables_ok t2 w1 names roots Hnames Hroots)
      as Hadd.
    set (t3 := set_variables_field _ t2) in Hadd.
    assert (Hcls3 : cls t3 = cls t) by done.
    clearbody t3.
    assert (Hfin : ∀ (o : pyarg) items,
      let w' := world_setvars
                  (setenv_pairs (match o with ArgList l => l | _ => [] end)
                                items) w1 in
      log w' = log w ++
        [(ERROR,
          "List of toolchain dependency modules and toolchain definition do not match")]
      ∧ calls w' = calls w ++
          [Call_exists (PyStr (name t)) (PyStr (version t));
           Call_add_module [ModTuple (name t) (version t)];
           Call_add_module (ModDep <$> dependencies t);
           Call_load;
           Call_dependencies_for (name t) (version t) 0] ++
          ((fun kv => Call_setvar (fst kv) (snd kv)) <$>
           setenv_pairs (match o with ArgList l => l | _ => [] end) items)).
    { intros o items w'. subst w'. split.
      - by rewrite (proj2 (world_setvars_frame _ _)).
      - by rewrite world_setvars_calls, Hcalls1, <- app_assoc. }
    destruct onlymod as [|[|]|s|l]; try (by destruct (Hstr s)).
    - rewrite Hadd. unfold generate_vars. run.
      erewrite _setenv_variables_run; [|reflexivity|done].
      eexists _, _, _. split; [reflexivity|].
      cbn [vars set_vars variables]. rewrite Hcls3.
      split; [reflexivity|]. split; [reflexivity|]. apply (Hfin ArgNone).
    - unfold generate_vars. run.
      eexists _, _, _. split; [reflexivity|].
      cbn [vars set_vars variables]. rewrite Hcls2.
      split; [reflexivity|]. split; [reflexivity|].
      split; [done|]. by rewrite Hcalls1, app_nil_r.
    - rewrite Hadd. unfold generate_vars. run.
      erewrite _setenv_variables_run; [|reflexivity|done].
      eexists _, _, _. split; [reflexivity|].
      cbn [vars set_vars variables]. rewrite Hcls3.
      split; [reflexivity|]. split; [reflexivity|].
      apply (Hfin (ArgBool false)).
    - rewrite Hadd. unfold generate_vars. run.
      erewrite _setenv_variables_run; [|reflexivity|done].
      eexists _, _, _. split; [reflexivity|].
      cbn [vars set_vars variables]. rewrite Hcls3.
      split; [reflexivity|]. split; [reflexivity|].
      apply (Hfin (ArgList l)). }
  destruct Hrun as (t' & w' & items & Hrun & Hvars & Hitems & Hlog & Hcalls).
  rewrite Hrun. cbn [fst snd]. split; [done|]. split; [done|].
  by exists items.
Qed.

End Properties.

(** C1: for the dependency [{name: "zlib"}], which carries no version, on
    the toolchain GCC 4.7, the module system is asked for the zlib modules
    with suffix ["-GCC-4.7"] and answers with two matches, the last one
    being ["1.2.7-GCC-4.7"]; [get_dependency_version] returns [None], not
    that identifier (its last statement is a bare [return]). *)
Theorem get_dependency_version_zlib_returns_None :
  mod_available Examples.host (PyStr "zlib") "-GCC-4.7"
    = [("zlib", "1.2.5-GCC-4.7"); ("zlib", "1.2.7-GCC-4.7")]
  ∧ get_dependency_version Examples.zlib (Examples.gcc47, Examples.world0)
    = (Ok PyNone,
       (Examples.gcc47,
        world_call (Call_available (PyStr "zlib") "-GCC-4.7") Examples.world0)).
Proof. split; reflexivity. Qed.

(** ** The theorems at the examples *)

Lemma get_dependency_version_deterministic_witness :
  is_Some (Examples.openmpi !! "version")
  ∧ fst (get_dependency_version Examples.openmpi
           (Examples.gcc47, Examples.world0))
    = fst (get_dependency_version Examples.openmpi
             (set_dependencies [Examples.zlib] Examples.gcc47,
              world_call Call_load Examples.world0)).
Proof.
  assert (H : is_Some (Examples.openmpi !! "version")) by (by eexists).
  split; [exact H|].
  exact (proj1 (get_dependency_version_deterministic
                  Examples.gcc47
                  (set_dependencies [Examples.zlib] Examples.gcc47)
                  Examples.world0 (world_call Call_load Examples.world0)
                  Examples.openmpi eq_refl eq_refl H)).
Defined.

Lemma prepare_dummy_dummy_witness :
  init Examples.base (Some DUMMY_NAME) (Some DUMMY_VERSION)
    = Ok Examples.dummy_dummy
  ∧ calls (snd (snd (prepare ArgNone (Examples.dummy_dummy, Examples.world0))))
    = []
  ∧ vars (fst (snd (prepare ArgNone (Examples.dummy_dummy, Examples.world0))))
    = None.
Proof.
  split; [reflexivity|].
  pose proof (prepare_dummy_dummy Examples.dummy_dummy Examples.world0 ArgNone
                eq_refl eq_refl eq_refl) as (_ & Hc & _ & Hv & _).
  split; [exact Hc|exact Hv].
Defined.

Lemma prepare_dummy_name_loads_dependencies_witness :
  version (set_dependencies [Examples.openmpi_gcc47] Examples.dummy_1_0)
    ≠ DUMMY_VERSION
  ∧ calls (snd (snd (prepare ArgNone
             (set_dependencies [Examples.openmpi_gcc47] Examples.dummy_1_0,
              Examples.world0))))
    = [Call_add_module [ModDep Examples.openmpi_gcc47]; Call_load].
Proof.
  assert (Hv : version (set_dependencies [Examples.openmpi_gcc47]
                                         Examples.dummy_1_0)
               ≠ DUMMY_VERSION) by (intros H; discriminate H).
  split; [exact Hv|].
  pose proof (prepare_dummy_name_loads_dependencies
                (set_dependencies [Examples.openmpi_gcc47] Examples.dummy_1_0)
                Examples.world0 ArgNone eq_refl Hv eq_refl) as (Hrun & _).
  exact (f_equal (fun r => calls (snd (snd r))) Hrun).
Defined.

Lemma setenv_variables_emits_pairs_witness :
  calls (snd (snd (_setenv_variables (ArgList ["CFLAGS"])
                     (Examples.gcc47_vars, Examples.world0))))
  = [Call_setvar "CC" "gcc"; Call_setvar "EBVARCC" "gcc"].
Proof.
  exact (proj2 (proj2 (setenv_variables_emits_pairs Examples.gcc47_vars
                         Examples.world0 (ArgList ["CFLAGS"])
                         [("CC", "gcc"); ("CFLAGS", "-O2")] eq_refl))).
Defined.

Lemma add_dependencies_registers_witness :
  add_dependencies [Examples.openmpi] (Examples.gcc47, Examples.world0)
  = (Ok tt,
     (set_dependencies [Examples.openmpi_gcc47] Examples.gcc47,
      world_call (Call_exists (PyStr "OpenMPI") (PyStr "1.6-GCC-4.7"))
                 Examples.world0))
  ∧ ∃ added,
      [Examples.openmpi_gcc47] = added
      ∧ Forall2 (fun dep dep' =>
                   (dep' = dep
                    ∨ ∃ tc, dep !! "tc" = None ∧ dep' = <["tc" := tc]> dep)
                   ∧ ∃ n tc, dep' !! "name" = Some n ∧ dep' !! "tc" = Some tc
                             ∧ mod_exists Examples.host n tc = true)
                [Examples.openmpi] added.
Proof.
  assert (H : add_dependencies [Examples.openmpi]
                (Examples.gcc47, Examples.world0)
    = (Ok tt,
       (set_dependencies [Examples.openmpi_gcc47] Examples.gcc47,
        world_call (Call_exists (PyStr "OpenMPI") (PyStr "1.6-GCC-4.7"))
                   Examples.world0))) by (vm_compute; reflexivity).
  split; [exact H|].
  exact (add_dependencies_registers _ _ _ _ _ H).
Defined.

Lemma add_dependencies_not_atomic_witness :
  is_Some (Examples.legacy !! "tk")
  ∧ ∃ e w2,
      add_dependencies ([Examples.openmpi] ++ Examples.legacy :: [Examples.zlib])
                       (Examples.gcc47, Examples.world0)
      = (Raise e,
         (set_dependencies [Examples.openmpi_gcc47] Examples.gcc47, w2))
      ∧ (e = LegacyTkFound Examples.legacy
         ∨ ∃ n tc, e = NoModuleFoundForDependency n tc)
      ∧ ∃ added,
          dependencies (set_dependencies [Examples.openmpi_gcc47] Examples.gcc47)
          = dependencies Examples.gcc47 ++ added
          ∧ length added = length [Examples.openmpi].
Proof.
  assert (Htk : is_Some (Examples.legacy !! "tk")) by (by eexists).
  split; [exact Htk|].
  apply (add_dependencies_not_atomic [Examples.openmpi] Examples.legacy
           [Examples.zlib] Examples.gcc47 Examples.world0
           (set_dependencies [Examples.openmpi_gcc47] Examples.gcc47)
           (world_call (Call_exists (PyStr "OpenMPI") (PyStr "1.6-GCC-4.7"))
                       Examples.world0)).
  - vm_compute; reflexivity.
  - left. exact Htk.
Defined.

Lemma prepare_mismatch_not_fatal_witness :
  fst (prepare ArgNone (Examples.goalf1_openmpi, Examples.world0)) = Ok tt
  ∧ log (snd (snd (prepare ArgNone (Examples.goalf1_openmpi, Examples.world0))))
    = [(ERROR,
        "List of toolchain dependency modules and toolchain definition do not match")].
Proof.
  assert (Hname : name Examples.goalf1_openmpi ≠ DUMMY_NAME)
    by (intros H; discriminate H).
  assert (Hmis :
    list_to_set
      (td_name <$> mod_dependencies_for (modules Examples.world0)
                     (name Examples.goalf1_openmpi)
                     (version Examples.goalf1_openmpi) 0)
    ≠ toolchain_elements_mod_names Examples.goalf1_openmpi
        (list_to_set
           (td_name <$> mod_dependencies_for (modules Examples.world0)
                          (name Examples.goalf1_openmpi)
                          (version Examples.goalf1_openmpi) 0))).
  { apply (bool_decide_eq_false_1 _). vm_compute. reflexivity. }
  assert (Hstr : ∀ s, ArgNone ≠ ArgStr s) by (intros s H; discriminate H).
  assert (Hnames : Forall2 (fun (d : dict) n => d !! "name" = Some n)
                     (dependencies Examples.goalf1_openmpi) [PyStr "OpenMPI"])
    by (repeat constructor).
  assert (Hroots : Forall2
                     (fun n r => mod_get_software_root
                                   (modules Examples.world0) n = Some r)
                     [PyStr "OpenMPI"] ["/opt/OpenMPI"])
    by (repeat constructor).
  pose proof (prepare_mismatch_not_fatal Examples.goalf1_openmpi
                Examples.world0 ArgNone [PyStr "OpenMPI"] ["/opt/OpenMPI"]
                Hname eq_refl Hmis Hstr Hnames Hroots)
    as (Hok & Hlog & _).
  split; [exact Hok|exact Hlog].
Defined.

(** The whole life cycle on GCC 4.7 with OpenMPI 1.6: registration, then
    [prepare], generate the search-path variables of the dependency. *)
Example prepare_gcc47_openmpi_vars :
  vars (fst (snd ((add_dependencies [Examples.openmpi];; prepare ArgNone)
                    (Examples.gcc47, Examples.world0))))
  = Some [("CPPFLAGS", "/opt/OpenMPI/include");
          ("LDFLAGS", "/opt/OpenMPI/lib64 /opt/OpenMPI/lib")].
Proof. vm_compute. reflexivity. Qed.

(** * Further properties of the class *)

Section MoreProperties.

Context {V : Type}.

Implicit Types (t : @Toolchain V) (w : World) (dep : dict).

Lemma append_empty_r (s : string) : s +:+ "" = s.
Proof.
  induction s as [|a s IH]; [done|].
  change (String a (s +:+ "") = String a s). by rewrite IH.
Qed.

(** ** Classes and construction *)

(** X1: a class that says it can be used without a name (its
    [_is_toolchain_for(None)] is true) can be constructed without one: the
    toolchain carries the name of the class, which the class recognises,
    the version given, no dependencies and no generated variables. *)
Theorem init_of_usable_class (c : @ToolchainClass V) (v : string) :
  truthy (_is_toolchain_for c None) = true ->
  ∃ t, init c None (Some v) = Ok t
       ∧ NAME c = Some (name t)
       ∧ _is_toolchain_for c (Some (name t)) = PyBool true
       ∧ version t = v
       ∧ dependencies t = [] ∧ toolchain_dependencies t = []
       ∧ vars t = None.
Proof.
  unfold _is_toolchain_for, init. destruct (NAME c) as [n|] eqn:Hn; [|done].
  cbn. intros Hne. eexists. split; [reflexivity|]. cbn.
  destruct (bool_decide (n = "")); [done|]. cbn.
  by rewrite bool_decide_eq_true_2.
Qed.

(** ** [_toolchain_exists] *)

(** X2: a toolchain named dummy always exists, whatever name and version
    are asked for, and the module system is not asked. *)
Theorem toolchain_exists_dummy t w (n v : option string) :
  name t = DUMMY_NAME ->
  _toolchain_exists n v (t, w) = (Ok true, (t, w)).
Proof.
  intros Hn. unfold _toolchain_exists. run.
  by rewrite (bool_decide_eq_true_2 _ Hn).
Qed.

(** ** [get_dependency_version] *)

(** X3: resolution only reads: the toolchain, the environment and the log
    are left as they were, and at most one call, an [available] query, is
    recorded. *)
Theorem get_dependency_version_read_only t w dep :
  fst (snd (get_dependency_version dep (t, w))) = t
  ∧ environ (snd (snd (get_dependency_version dep (t, w)))) = environ w
  ∧ log (snd (snd (get_dependency_version dep (t, w)))) = log w
  ∧ (calls (snd (snd (get_dependency_version dep (t, w)))) = calls w
     ∨ ∃ n sfx, calls (snd (snd (get_dependency_version dep (t, w))))
                = calls w ++ [Call_available n sfx]).
Proof.
  rewrite get_dependency_version_eq.
  destruct (dep !! "version"); [by auto|].
  destruct (str_join _) as [sfx|]; [|by auto].
  destruct (dep !! "name") as [n|]; [|by auto].
  cbn. repeat split; try done. right. by exists n, sfx.
Qed.

(** X4: without a version and without a match, resolution raises, naming
    the dependency and the suffix it asked for, after that one query. *)
Theorem get_dependency_version_no_match t w dep n sfx :
  dep !! "version" = None ->
  dep !! "name" = Some n ->
  default (PyStr "") (dep !! "suffix") = PyStr sfx ->
  mod_available (modules w) n
    (toolchain_suffix_of (name t) (version t) dep +:+ sfx) = [] ->
  get_dependency_version dep (t, w)
  = (Raise (NoToolchainVersionForDependency n
              (toolchain_suffix_of (name t) (version t) dep +:+ sfx)),
     (t, world_call
           (Call_available n
              (toolchain_suffix_of (name t) (version t) dep +:+ sfx)) w)).
Proof.
  intros Hv Hn Hs Hav.
  rewrite (get_dependency_version_unversioned t w dep n
             (toolchain_suffix_of (name t) (version t) dep +:+ sfx) Hv Hn).
  - by rewrite Hav.
  - rewrite Hs. cbn. by rewrite append_empty_r.
Qed.

(** X5: a dependency marked independent of the toolchain (a true value
    under the key [dummy]) resolves to its version followed by its custom
    suffix, on every toolchain. *)
Theorem get_dependency_version_independent t w dep flag v sfx :
  dep !! DUMMY_NAME = Some flag ->
  truthy flag = true ->
  dep !! "version" = Some (PyStr v) ->
  default (PyStr "") (dep !! "suffix") = PyStr sfx ->
  get_dependency_version dep (t, w) = (Ok (PyStr (v +:+ sfx)), (t, w)).
Proof.
  intros Hd Hf Hv Hs.
  rewrite (get_dependency_version_explicit_str t w dep v Hv), Hs.
  unfold toolchain_suffix_of. rewrite Hd, Hf. cbn.
  by rewrite append_empty_r.
Qed.


(** X7: a descriptor with neither version nor name raises [KeyError]
    before the module system is asked, and leaves the state as it was. *)
Theorem get_dependency_version_no_name t w dep sfx :
  dep !! "version" = None ->
  dep !! "name" = None ->
  default (PyStr "") (dep !! "suffix") = PyStr sfx ->
  get_dependency_version dep (t, w) = (Raise (KeyError "name"), (t, w)).
Proof.
  intros Hv Hn Hs. by rewrite get_dependency_version_eq, Hv, Hs, Hn.
Qed.

(** X8: a version that is not a string ([None], a boolean) raises
    [TypeError] and leaves the state as it was. *)
Theorem get_dependency_version_bad_version t w dep v :
  dep !! "version" = Some v ->
  (∀ s, v ≠ PyStr s) ->
  get_dependency_version dep (t, w) = (Raise TypeError, (t, w)).
Proof.
  intros Hv Hns. rewrite get_dependency_version_eq, Hv.
  destruct v as [|b|s]; [done|done|]. by destruct (Hns s).
Qed.

(** ** [add_dependencies] *)

Lemma set_dependencies_app_nil t :
  set_dependencies (dependencies t ++ []) t = t.
Proof. rewrite app_nil_r. by destruct t. Qed.

(** What one iteration of [add_dependencies] can change, whatever its
    outcome. *)
Lemma add_dependency_effects dep t w :
  ∃ added new,
    fst (snd (add_dependency dep (t, w)))
      = set_dependencies (dependencies t ++ added) t
    ∧ calls (snd (snd (add_dependency dep (t, w)))) = calls w ++ new
    ∧ Forall (fun c => is_query c = true) new
    ∧ environ (snd (snd (add_dependency dep (t, w)))) = environ w
    ∧ log (snd (snd (add_dependency dep (t, w)))) = log w
    ∧ modules (snd (snd (add_dependency dep (t, w)))) = modules w.
Proof.
  unfold add_dependency. run.
  case_bool_decide as Htk.
  { exists [], []. cbn. by rewrite set_dependencies_app_nil, app_nil_r. }
  case_bool_decide as Htc; cbn [negb].
  - destruct (dep !! "name") as [n|];
      [|exists [], []; cbn; by rewrite set_dependencies_app_nil, app_nil_r].
    destruct (dep !! "tc") as [tc|];
      [|exists [], []; cbn; by rewrite set_dependencies_app_nil, app_nil_r].
    cbn [modules world_call].
    destruct (mod_exists (modules w) n tc); cbn [negb].
    + exists [dep], [Call_exists n tc]. cbn. repeat split; try done.
      by repeat constructor.
    + exists [], [Call_exists n tc]. cbn.
      rewrite set_dependencies_app_nil. repeat split; try done.
      by repeat constructor.
  - rewrite get_dependency_version_eq.
    assert (Hq : ∀ n sfx, Forall (fun c => is_query c = true)
                            [Call_available n sfx])
      by (intros; by repeat constructor).
    assert (Hq2 : ∀ n sfx n' tc', Forall (fun c => is_query c = true)
                            [Call_available n sfx; Call_exists n' tc'])
      by (intros; by repeat constructor).
    assert (Hq1 : ∀ n' tc', Forall (fun c => is_query c = true)
                            [Call_exists n' tc'])
      by (intros; by repeat constructor).
    destruct (dep !! "version") as [v|].
    + destruct (str_join _) as [s|];
        [|exists [], []; cbn; by rewrite set_dependencies_app_nil, app_nil_r].
      rewrite lookup_insert_eq, lookup_insert_ne by done.
      destruct (dep !! "name") as [n|];
        [|exists [], []; cbn; by rewrite set_dependencies_app_nil, app_nil_r].
      cbn [modules world_call].
      destruct (mod_exists (modules w) n (PyStr s)); cbn [negb].
      * exists [<["tc" := PyStr s]> dep], [Call_exists n (PyStr s)]. cbn.
        by repeat split.
      * exists [], [Call_exists n (PyStr s)]. cbn.
        rewrite set_dependencies_app_nil. by repeat split.
    + destruct (str_join _) as [sfx|];
        [|exists [], []; cbn; by rewrite set_dependencies_app_nil, app_nil_r].
      destruct (dep !! "name") as [n|] eqn:Hn;
        [|exists [], []; cbn; by rewrite set_dependencies_app_nil, app_nil_r].
      case_bool_decide.
      * rewrite lookup_insert_eq, lookup_insert_ne, Hn by done.
        cbn [modules world_call].
        destruct (mod_exists (modules w) n PyNone); cbn [negb].
        -- exists [<["tc" := PyNone]> dep],
             [Call_available n sfx; Call_exists n PyNone]. cbn.
           rewrite <- app_assoc. by repeat split.
        -- exists [], [Call_available n sfx; Call_exists n PyNone]. cbn.
           rewrite set_dependencies_app_nil, <- app_assoc. by repeat split.
      * exists [], [Call_available n sfx]. cbn.
        rewrite set_dependencies_app_nil. by repeat split.
Qed.

Lemma add_dependencies_effects deps t w :
  ∃ added new,
    fst (snd (add_dependencies deps (t, w)))
      = set_dependencies (dependencies t ++ added) t
    ∧ calls (snd (snd (add_dependencies deps (t, w)))) = calls w ++ new
    ∧ Forall (fun c => is_query c = true) new
    ∧ environ (snd (snd (add_dependencies deps (t, w)))) = environ w
    ∧ log (snd (snd (add_dependencies deps (t, w)))) = log w
    ∧ modules (snd (snd (add_dependencies deps (t, w)))) = modules w.
Proof.
  unfold add_dependencies. revert t w.
  induction deps as [|dep deps IH]; intros t w.
  { exists [], []. cbn. by rewrite set_dependencies_app_nil, app_nil_r. }
  cbn [for_each]. unfold mbind, M_bind.
  destruct (add_dependency_effects dep t w)
    as (added & new & Ht & Hc & Hq & He & Hl & Hm).
  destruct (add_dependency dep (t, w)) as [[[]|e] [t1 w1]];
    cbn [fst snd] in *; [|by exists added, new].
  destruct (IH t1 w1) as (added' & new' & Ht' & Hc' & Hq' & He' & Hl' & Hm').
  exists (added ++ added'), (new ++ new').
  rewrite Ht', Hc', He', Hl', Hm', Ht, Hc. cbn.
  rewrite !app_assoc. repeat split; try done. by apply Forall_app.
Qed.

(** X9: whatever its outcome, [add_dependencies] only appends to the
    dependency list of the toolchain (what was registered stays, in front,
    and nothing else of the object changes), only asks the module system
    questions ([exists], [available]: nothing is added or loaded), and
    leaves the environment and the log alone. *)
Theorem add_dependencies_only_appends_and_asks deps t w :
  ∃ added new,
    fst (snd (add_dependencies deps (t, w)))
      = set_dependencies (dependencies t ++ added) t
    ∧ calls (snd (snd (add_dependencies deps (t, w)))) = calls w ++ new
    ∧ Forall (fun c => is_query c = true) new
    ∧ environ (snd (snd (add_dependencies deps (t, w)))) = environ w
    ∧ log (snd (snd (add_dependencies deps (t, w)))) = log w.
Proof.
  destruct (add_dependencies_effects deps t w)
    as (added & new & Ht & Hc & Hq & He & Hl & _).
  by exists added, new.
Qed.

(** X10: registering a list in two calls is the same as registering the
    concatenation in one. *)
Theorem add_dependencies_app deps1 deps2 (s : @State V) :
  add_dependencies (deps1 ++ deps2) s
  = (add_dependencies deps1;; add_dependencies deps2) s.
Proof.
  unfold add_dependencies. rewrite for_each_app. unfold mbind, M_bind.
  by destruct (for_each deps1 add_dependency s) as [[[]|e] s1].
Qed.

(** X11: a descriptor that comes with its [tc] is taken as it is: it is
    appended unchanged after the one [exists] query, and no version is
    looked up, whether or not it has a [version]. *)
Theorem add_dependencies_explicit_tc dep t w n tc :
  dep !! "tk" = None ->
  dep !! "name" = Some n ->
  dep !! "tc" = Some tc ->
  mod_exists (modules w) n tc = true ->
  add_dependencies [dep] (t, w)
  = (Ok tt, (set_dependencies (dependencies t ++ [dep]) t,
             world_call (Call_exists n tc) w)).
Proof.
  intros Htk Hn Htc Hex. unfold add_dependencies. cbn [for_each].
  unfold add_dependency. run.
  rewrite bool_decide_eq_false_2 by (rewrite Htk; by intros [? ?]).
  rewrite bool_decide_eq_true_2 by (by eexists). cbn [negb].
  rewrite Hn, Htc. cbn [modules world_call]. by rewrite Hex.
Qed.

(** X12: the legacy key [tk] is looked for first: a list whose first
    descriptor has it is refused before the module system is asked
    anything, with the toolchain as it was. *)
Theorem add_dependencies_legacy_first dep deps t w :
  is_Some (dep !! "tk") ->
  add_dependencies (dep :: deps) (t, w) = (Raise (LegacyTkFound dep), (t, w)).
Proof.
  intros Htk. unfold add_dependencies. cbn [for_each].
  by rewrite (bind_Raise _ _ _ _ _ (add_dependency_legacy dep t w Htk)).
Qed.

(** ** [generate_vars] *)






(** ** The subdirectory lists *)

Lemma extend_paths_Some paths ps :
  paths `prefix_of` extend_paths paths (Some ps)
  ∧ (NoDup paths -> NoDup (extend_paths paths (Some ps)))
  ∧ ∀ x, x ∈ extend_paths paths (Some ps) ↔ x ∈ paths ∨ x ∈ ps.
Proof.
  cbn. revert paths. induction ps as [|p ps IH]; intros paths.
  { cbn. split; [done|]. split; [done|]. set_solver. }
  cbn [foldl]. case_bool_decide as Hp.
  - destruct (IH paths) as (H1 & H2 & H3). split; [done|]. split; [done|].
    intros x. rewrite H3. set_solver.
  - destruct (IH (paths ++ [p])) as (H1 & H2 & H3). split; [|split].
    + etrans; [|exact H1]. by apply prefix_app_r.
    + intros Hnd. apply H2. apply NoDup_app. split; [done|].
      split; [|apply NoDup_singleton].
      intros x Hx ->%list_elem_of_singleton. done.
    + intros x. rewrite H3. set_solver.
Qed.

Lemma extend_paths_gen paths extra :
  paths `prefix_of` extend_paths paths extra
  ∧ (NoDup paths -> NoDup (extend_paths paths extra))
  ∧ ∀ x, x ∈ extend_paths paths extra ↔ x ∈ paths ∨ x ∈ default [] extra.
Proof.
  destruct extra as [ps|]; [apply extend_paths_Some|].
  cbn. split; [done|]. split; [done|]. set_solver.
Qed.

(** X14: whatever extra subdirectories the caller gives, the lists of
    [_add_dependency_variables] start with the default ones, go on with
    the extra ones that are new, hold nothing else and hold nothing
    twice. *)
Theorem dependency_paths_extras (o : ToolchainOptions)
    (cpp ld : option (list string)) :
  fst (dependency_paths o None None) `prefix_of` fst (dependency_paths o cpp ld)
  ∧ snd (dependency_paths o None None) `prefix_of` snd (dependency_paths o cpp ld)
  ∧ NoDup (fst (dependency_paths o cpp ld))
  ∧ NoDup (snd (dependency_paths o cpp ld))
  ∧ (∀ x, x ∈ fst (dependency_paths o cpp ld)
          ↔ x = "include" ∨ x ∈ default [] cpp)
  ∧ (∀ x, x ∈ snd (dependency_paths o cpp ld)
          ↔ x ∈ snd (dependency_paths o None None) ∨ x ∈ default [] ld).
Proof.
  unfold dependency_paths. cbn [fst snd extend_paths].
  set (ldp := if negb _ then _ else _).
  assert (Hld : NoDup ldp).
  { subst ldp. destruct (negb _).
    - apply NoDup_cons. split; [|apply NoDup_singleton].
      intros ?%list_elem_of_singleton. done.
    - apply NoDup_singleton. }
  destruct (extend_paths_gen ["include"] cpp) as (H1 & H2 & H3).
  destruct (extend_paths_gen ldp ld) as (H4 & H5 & H6).
  split; [done|]. split; [done|].
  split; [apply H2, NoDup_singleton|]. split; [by apply H5|].
  split; [|done]. intros x. rewrite H3. set_solver.
Qed.

(** ** [get_software_root] *)

Lemma _get_software_root_missing n t w :
  mod_get_software_root (modules w) n = None ->
  _get_software_root n (t, w) = (Raise (SoftwareRootNotFound n), (t, w)).
Proof. intros H. unfold _get_software_root. run. by rewrite H. Qed.

Lemma get_software_root_state names t w :
  snd (get_software_root names (t, w)) = (t, w).
Proof.
  unfold get_software_root.
  induction names as [|n names IH]; [done|].
  cbn [_get_software_multiple].
  destruct (mod_get_software_root (modules w) n) as [r|] eqn:Hn.
  - rewrite (bind_Ok _ _ _ _ _ (_get_software_root_ok n r t w Hn)).
    unfold mbind, M_bind.
    by destruct (_get_software_multiple names _get_software_root (t, w))
      as [[roots|e] s1]; cbn in IH; subst.
  - by rewrite (bind_Raise _ _ _ _ _ (_get_software_root_missing n t w Hn)).
Qed.

(** X15: [get_software_root] on a list of names never changes the state;
    it returns the roots in the order of the names when each has one, and
    otherwise raises for the first name that has none. *)
Theorem get_software_root_outcome names t w :
  snd (get_software_root names (t, w)) = (t, w)
  ∧ match fst (get_software_root names (t, w)) with
    | Ok roots =>
        Forall2 (fun n r => mod_get_software_root (modules w) n = Some r)
                names roots
    | Raise e =>
        ∃ pre n post,
          names = pre ++ n :: post
          ∧ Forall (fun m => is_Some (mod_get_software_root (modules w) m)) pre
          ∧ mod_get_software_root (modules w) n = None
          ∧ e = SoftwareRootNotFound n
    end.
Proof.
  split; [apply get_software_root_state|].
  unfold get_software_root.
  induction names as [|n names IH]; [by constructor|].
  cbn [_get_software_multiple].
  destruct (mod_get_software_root (modules w) n) as [r|] eqn:Hn.
  - rewrite (bind_Ok _ _ _ _ _ (_get_software_root_ok n r t w Hn)).
    unfold mbind, M_bind.
    destruct (_get_software_multiple names _get_software_root (t, w))
      as [[roots|e] s1]; cbn [fst] in *.
    + by constructor.
    + destruct IH as (pre & m & post & -> & Hpre & Hm & ->).
      exists (n :: pre), m, post. split; [done|]. split; [|done].
      constructor; [by eexists|done].
  - rewrite (bind_Raise _ _ _ _ _ (_get_software_root_missing n t w Hn)).
    cbn. exists [], n, names. by repeat split.
Qed.

(** ** [_add_dependency_variables] *)

Lemma getitems_state (ds : list dict) key (s : @State V) :
  snd (getitems ds key s) = s.
Proof.
  induction ds as [|d ds IH]; [done|].
  cbn [getitems]. run. destruct (d !! key); [|done].
  by destruct (getitems ds key s) as [[vs|e] s1]; cbn in IH; subst.
Qed.

Lemma _add_dependency_variables_state names cpp ld t w :
  match fst (_add_dependency_variables names cpp ld (t, w)) with
  | Raise _ => snd (_add_dependency_variables names cpp ld (t, w)) = (t, w)
  | Ok _ =>
      ∃ v, snd (_add_dependency_variables names cpp ld (t, w))
           = (set_variables_field v t, w)
  end.
Proof.
  unfold _add_dependency_variables. run.
  match goal with
  | |- context [getitems ?ds "name" (t, w)] =>
      pose proof (getitems_state ds "name" (t, w)) as Hg;
      destruct (getitems ds "name" (t, w)) as [[dnames|e] s1]
  end; cbn [snd] in Hg; subst s1; [|done].
  pose proof (get_software_root_state dnames t w) as Hr.
  destruct (get_software_root dnames (t, w)) as [[roots|e] s1];
    cbn [snd] in Hr; subst s1; [|done].
  cbn. by eexists.
Qed.

(** X16: [_add_dependency_variables] looks up every root before it appends
    anything: when it raises (a descriptor without a name, a name without
    a root), toolchain and world are exactly as before; when it returns,
    only the variable container has changed. *)
Theorem add_dependency_variables_all_or_nothing names cpp ld t w :
  match fst (_add_dependency_variables names cpp ld (t, w)) with
  | Raise _ => snd (_add_dependency_variables names cpp ld (t, w)) = (t, w)
  | Ok _ =>
      ∃ v, snd (_add_dependency_variables names cpp ld (t, w))
           = (set_variables_field v t, w)
  end.
Proof. apply _add_dependency_variables_state. Qed.

Lemma getitems_names (ns : list pyval) (s : @State V) :
  getitems ((fun n => {["name" := n]}) <$> ns) "name" s = (Ok ns, s).
Proof.
  apply getitems_ok. induction ns as [|n ns IH]; constructor; [|done].
  apply lookup_singleton_eq.
Qed.

(** X17: with a non-empty list of names, the registered dependencies are
    not consulted: the [None] entries are skipped, and the subdirectories
    of the roots of the other names are appended, in the order of the
    names, [CPPFLAGS] before [LDFLAGS] for each root. *)
Theorem add_dependency_variables_names n ns cpp ld roots t w :
  Forall2 (fun m r => mod_get_software_root (modules w) m = Some r)
          (filter (fun m => m ≠ PyNone) (n :: ns)) roots ->
  _add_dependency_variables (Some (n :: ns)) cpp ld (t, w)
  = (Ok tt,
     (set_variables_field
        (foldl (fun v root =>
                  tv_append_subdirs (VARIABLES_CLASS (cls t)) "LDFLAGS" root
                    (snd (dependency_paths (options t) cpp ld))
                    (tv_append_subdirs (VARIABLES_CLASS (cls t)) "CPPFLAGS"
                       root (fst (dependency_paths (options t) cpp ld)) v))
               (variables t) roots) t, w)).
Proof.
  intros Hroots. unfold _add_dependency_variables.
  unfold mbind at 1. unfold M_bind at 1. unfold get_self at 1. cbn [fst snd].
  rewrite (bind_Ok _ _ _ _ _ (getitems_names _ (t, w))).
  rewrite (bind_Ok _ _ _ _ _ (get_software_root_ok _ _ t w Hroots)).
  reflexivity.
Qed.

(** ** [_setenv_variables] and the environment *)

Lemma world_setvars_environ_other kvs w x :
  x ∉ kvs.*1 -> environ (world_setvars kvs w) !! x = environ w !! x.
Proof.
  unfold world_setvars. revert w.
  induction kvs as [|[k v] kvs IH]; intros w Hx; [done|].
  cbn [foldl fst snd]. cbn in Hx. rewrite IH by set_solver.
  cbn. apply lookup_insert_ne. set_solver.
Qed.

Lemma world_setvars_environ_set kvs w x v :
  NoDup kvs.*1 -> (x, v) ∈ kvs ->
  environ (world_setvars kvs w) !! x = Some v.
Proof.
  revert w. induction kvs as [|[k u] kvs IH]; intros w Hnd Hin.
  { by apply elem_of_nil in Hin. }
  cbn in Hnd. apply NoDup_cons in Hnd as [Hk Hnd].
  apply elem_of_cons in Hin as [Heq|Hin].
  - injection Heq as <- <-.
    change (world_setvars ((x, v) :: kvs) w)
      with (world_setvars kvs (world_setvar x v w)).
    rewrite world_setvars_environ_other by done.
    cbn. apply lookup_insert_eq.
  - change (world_setvars ((k, u) :: kvs) w)
      with (world_setvars kvs (world_setvar k u w)).
    by apply IH.
Qed.

Lemma setenv_pairs_keys skip (items : list (string * string)) x :
  x ∈ (setenv_pairs skip items).*1
  ↔ ∃ k, k ∈ items.*1 ∧ k ∉ skip ∧ (x = k ∨ x = "EBVAR" +:+ k).
Proof.
  unfold setenv_pairs. induction items as [|[k v] items IH].
  { cbn. split; [by intros ?%elem_of_nil|].
    by intros (k & ?%elem_of_nil & _). }
  cbn [flat_map fst snd]. rewrite fmap_app, elem_of_app, IH.
  case_bool_decide as Hk; cbn.
  - split.
    + intros [?%elem_of_nil|(k' & Hin & Hs & Hx)]; [done|].
      exists k'. split; [by right|done].
    + intros (k' & Hin & Hs & Hx). right. exists k'. split; [|done].
      apply elem_of_cons in Hin as [->|Hin]; done.
  - split.
    + intros [Hx|(k' & Hin & Hs & Hx)].
      * exists k. split; [by left|]. split; [done|].
        apply elem_of_cons in Hx as [->|Hx]; [by left|].
        apply list_elem_of_singleton in Hx as ->. by right.
      * exists k'. split; [by right|done].
    + intros (k' & Hin & Hs & Hx).
      apply elem_of_cons in Hin as [->|Hin].
      * left. destruct Hx as [->| ->]; [by left|]. right. by left.
      * right. by exists k'.
Qed.

Lemma setenv_pairs_member skip (items : list (string * string)) k v :
  (k, v) ∈ items -> k ∉ skip ->
  (k, v) ∈ setenv_pairs skip items
  ∧ ("EBVAR" +:+ k, v) ∈ setenv_pairs skip items.
Proof.
  unfold setenv_pairs. intros Hin Hs.
  split; apply list_elem_of_In, in_flat_map; exists (k, v);
    (split; [by apply list_elem_of_In|]); cbn;
    rewrite (bool_decide_eq_false_2 _ Hs); cbn; auto.
Qed.

Lemma setenv_pairs_NoDup skip (items : list (string * string)) :
  NoDup items.*1 ->
  (∀ k k', k ∈ items.*1 -> k ∉ skip -> k' ∈ items.*1 -> k' ∉ skip ->
           k ≠ "EBVAR" +:+ k') ->
  NoDup (setenv_pairs skip items).*1.
Proof.
  induction items as [|[k v] items IH]; intros Hnd Hal; [constructor|].
  cbn in Hnd. apply NoDup_cons in Hnd as [Hk Hnd].
  assert (IH' : NoDup (setenv_pairs skip items).*1).
  { apply IH; [done|]. intros a b Ha Hsa Hb Hsb.
    apply Hal; try done; by right. }
  unfold setenv_pairs in *. cbn [flat_map fst snd].
  case_bool_decide as Hs; [done|]. cbn.
  apply NoDup_cons. split; [|apply NoDup_cons; split; [|done]].
  - intros [Heq|Hin]%elem_of_cons.
    + apply (Hal k k); try done; by left.
    + apply (setenv_pairs_keys skip items) in Hin
        as (k' & Hin & Hs' & [->| ->]); [done|].
      apply (Hal ("EBVAR" +:+ k') k'); try done; [by left|by right].
  - intros Hin.
    apply (setenv_pairs_keys skip items) in Hin as (k' & Hin & Hs' & [Heq|Heq]).
    + apply (Hal k' k); try done; [by right|by left].
    + apply (inj (String.app "EBVAR")) in Heq. by subst.
Qed.

(** X18: [_setenv_variables] leaves alone every environment variable that
    is neither a variable it sets nor the alias of one. *)
Theorem setenv_variables_other_names t w donotset items x :
  vars t = Some items ->
  (∀ s, donotset ≠ ArgStr s) ->
  (∀ k, k ∈ items.*1 ->
        k ∉ match donotset with ArgList l => l | _ => [] end ->
        x ≠ k ∧ x ≠ "EBVAR" +:+ k) ->
  environ (snd (snd (_setenv_variables donotset (t, w)))) !! x
  = environ w !! x.
Proof.
  intros Hvars Hstr Hx.
  rewrite (_setenv_variables_run t w donotset items Hvars Hstr). cbn [snd].
  apply world_setvars_environ_other.
  intros (k & Hin & Hs & Hk)%setenv_pairs_keys.
  destruct (Hx k Hin Hs). by destruct Hk.
Qed.

(** X19: when [self.vars] has no name twice and no variable that is set
    has the name of the alias of one that is set, then after
    [_setenv_variables] every variable not in the list of names not to set
    can be read back from the environment, under its own name and under
    its alias, with the value it has in [self.vars]. *)
Theorem setenv_variables_read_back t w donotset items k v :
  vars t = Some items ->
  (∀ s, donotset ≠ ArgStr s) ->
  NoDup items.*1 ->
  (∀ a b, a ∈ items.*1 ->
          a ∉ match donotset with ArgList l => l | _ => [] end ->
          b ∈ items.*1 ->
          b ∉ match donotset with ArgList l => l | _ => [] end ->
          a ≠ "EBVAR" +:+ b) ->
  (k, v) ∈ items ->
  k ∉ match donotset with ArgList l => l | _ => [] end ->
  environ (snd (snd (_setenv_variables donotset (t, w)))) !! k = Some v
  ∧ environ (snd (snd (_setenv_variables donotset (t, w))))
      !! ("EBVAR" +:+ k) = Some v.
Proof.
  intros Hvars Hstr Hnd Hal Hin Hs.
  rewrite (_setenv_variables_run t w donotset items Hvars Hstr). cbn [snd].
  destruct (setenv_pairs_member _ items k v Hin Hs) as [H1 H2].
  split; apply world_setvars_environ_set;
    auto using setenv_pairs_NoDup.
Qed.

(** X20: called before any variables were generated ([self.vars] is
    [None]), [_setenv_variables] raises and sets nothing: the rejection of
    a string argument comes first, then the [AttributeError] of
    [None.items()]. *)
Theorem setenv_variables_before_generate t w donotset :
  vars t = None ->
  _setenv_variables donotset (t, w)
  = (Raise match donotset with
           | ArgStr _ => CommaSeparatedListDeprecated
           | _ => AttributeError
           end, (t, w)).
Proof.
  intros Hvars. unfold _setenv_variables.
  destruct donotset; run; rewrite ?Hvars; reflexivity.
Qed.

(** ** [prepare] *)

(** With a module for the toolchain, [prepare] is the five calls to the
    module system and the record of the consistency check, followed by
    the generation of the variables. *)
Lemma prepare_with_module t w onlymod :
  name t ≠ DUMMY_NAME ->
  mod_exists (modules w) (PyStr (name t)) (PyStr (version t)) = true ->
  prepare onlymod (t, w)
  = prepare_variables onlymod
      (set_toolchain_dependencies
         (mod_dependencies_for (modules w) (name t) (version t) 0) t,
       mkWorld (modules w)
         (calls w ++
          [Call_exists (PyStr (name t)) (PyStr (version t));
           Call_add_module [ModTuple (name t) (version t)];
           Call_add_module (ModDep <$> dependencies t);
           Call_load;
           Call_dependencies_for (name t) (version t) 0])
         (environ w)
         (log w ++
          [if bool_decide
                (list_to_set
                   (td_name <$> mod_dependencies_for (modules w) (name t)
                                  (version t) 0)
                 = toolchain_elements_mod_names t
                     (list_to_set
                        (td_name <$> mod_dependencies_for (modules w) (name t)
                                       (version t) 0)))
           then (INFO, "List of toolchain dependency modules and toolchain definition match!")
           else (ERROR, "List of toolchain dependency modules and toolchain definition do not match")])).
Proof.
  intros Hname Hex. unfold prepare, prepare_variables, _toolchain_exists. run.
  rewrite !(bool_decide_eq_false_2 _ Hname).
  unfold or_default. cbn [modules world_call]. rewrite Hex. cbn [negb].
  cbv [world_call world_log modules calls environ log].
  rewrite <- !app_assoc. cbn [app].
  by case_bool_decide.
Qed.

(** What the last steps of [prepare] can do: the toolchain changes in its
    variables and its [vars] only; an exception leaves the world as it
    was, a normal return has generated [vars] and made the [setvar] calls
    for them (none when [onlymod] is [True]). *)
Lemma prepare_variables_effects onlymod t w :
  ∃ v ovars,
    fst (snd (prepare_variables onlymod (t, w)))
      = set_vars ovars (set_variables_field v t)
    ∧ match fst (prepare_variables onlymod (t, w)) with
      | Raise _ => snd (snd (prepare_variables onlymod (t, w))) = w
      | Ok _ =>
          ∃ d, ovars = Some d
               ∧ d = foldl (fun d kv => dict_set kv.1 kv.2 d) []
                       (tv_items (VARIABLES_CLASS (cls t)) v)
               ∧ snd (snd (prepare_variables onlymod (t, w)))
                 = world_setvars
                     match onlymod with
                     | ArgBool true => []
                     | _ => setenv_pairs
                              (match onlymod with ArgList l => l | _ => [] end)
                              d
                     end w
      end.
Proof.
  unfold prepare_variables.
  destruct (set_variables_run t w) as [v2 Hsv].
  rewrite (bind_Ok _ _ _ _ _ Hsv).
  assert (Hgen : ∀ o,
    ∃ v ovars,
      fst (snd ((_add_dependency_variables None None None ≫= fun _ =>
                 generate_vars ≫= fun _ => _setenv_variables o)
                  (set_variables_field v2 t, w)))
        = set_vars ovars (set_variables_field v t)
      ∧ match fst ((_add_dependency_variables None None None ≫= fun _ =>
                    generate_vars ≫= fun _ => _setenv_variables o)
                     (set_variables_field v2 t, w)) with
        | Raise _ =>
            snd (snd ((_add_dependency_variables None None None ≫= fun _ =>
                       generate_vars ≫= fun _ => _setenv_variables o)
                        (set_variables_field v2 t, w)))
            = w
        | Ok _ =>
            ∃ d, ovars = Some d
                 ∧ d = foldl (fun d kv => dict_set kv.1 kv.2 d) []
                         (tv_items (VARIABLES_CLASS (cls t)) v)
                 ∧ snd (snd ((_add_dependency_variables None None None ≫= fun _ =>
                              generate_vars ≫= fun _ => _setenv_variables o)
                               (set_variables_field v2 t, w)))
                   = world_setvars
                       (setenv_pairs (match o with ArgList l => l | _ => [] end)
                                     d) w
        end).
  { intros o.
    set (t2 := set_variables_field v2 t).
    assert (Hid : ∀ v o, set_vars o (set_variables_field v t2)
                         = set_vars o (set_variables_field v t)) by done.
    assert (Hcls2 : cls t2 = cls t) by done.
    assert (Hself : t2 = set_vars (vars t) (set_variables_field v2 t))
      by (by destruct t).
    clearbody t2.
    pose proof (_add_dependency_variables_state None None None t2 w) as Hadd.
    remember ((_add_dependency_variables None None None ≫= fun _ =>
               generate_vars ≫= fun _ => _setenv_variables o) (t2, w))
      as r eqn:Hr.
    unfold mbind, M_bind in Hr.
    destruct (_add_dependency_variables None None None (t2, w))
      as [[[]|e] [t3 w3]]; cbn [fst snd] in Hadd.
    - destruct Hadd as [v3 Hadd]. injection Hadd as -> ->.
      unfold generate_vars, modify_self in Hr. cbn [fst snd] in Hr.
      assert (Hcase : (∃ s, o = ArgStr s) ∨ (∀ s, o ≠ ArgStr s))
        by (destruct o; try (by right); left; by eexists).
      destruct Hcase as [[s ->]|Hstr].
      + unfold _setenv_variables in Hr. run. cbn in Hr. subst r.
        eexists v3, _. cbn [fst snd]. split; [apply Hid|done].
      + erewrite _setenv_variables_run in Hr; [|reflexivity|exact Hstr].
        subst r.
        cbn [fst snd]. eexists v3, _. split; [apply Hid|].
        eexists. split; [reflexivity|]. split; [|done].
        cbn. by rewrite Hcls2.
    - injection Hadd as -> ->. subst r. cbn.
      exists v2, (vars t). by rewrite Hself. }
  destruct onlymod as [|[|]|s|l]; try apply Hgen.
  unfold generate_vars. run. cbn.
  eexists v2, _. split; [reflexivity|].
  eexists. split; [reflexivity|]. by split.
Qed.

Lemma set_variables_eq t w :
  set_variables (t, w)
  = (Ok tt,
     (set_variables_field
        (if truthy (option_method (options t) (opts (options t))
                                  "packed-linker-options")
         then tv_packed (VARIABLES_CLASS (cls t)) (variables t)
         else variables t) t, w)).
Proof.
  unfold set_variables. run. destruct (truthy _); [done|]. by destruct t.
Qed.

Lemma prepare_no_module t w onlymod :
  name t ≠ DUMMY_NAME ->
  mod_exists (modules w) (PyStr (name t)) (PyStr (version t)) = false ->
  prepare onlymod (t, w)
  = (Raise (NoModuleFoundForToolchain (name t) (version t)),
     (t, world_call (Call_exists (PyStr (name t)) (PyStr (version t))) w)).
Proof.
  intros Hname Hex. unfold prepare, _toolchain_exists. run.
  rewrite !(bool_decide_eq_false_2 _ Hname).
  unfold or_default. cbn [modules world_call]. by rewrite Hex.
Qed.

Lemma prepare_dummy t w onlymod :
  name t = DUMMY_NAME ->
  ∃ w', prepare onlymod (t, w) = (Ok tt, (t, w'))
        ∧ environ w' = environ w
        ∧ ∃ new, calls w' = calls w ++ new
                 ∧ Forall (fun c => is_setvar c = false) new.
Proof.
  intros Hname. unfold prepare, _toolchain_exists. run.
  rewrite !(bool_decide_eq_true_2 _ Hname). cbn [negb].
  case_bool_decide.
  - eexists. split; [reflexivity|]. split; [done|].
    exists []. cbn. by rewrite app_nil_r.
  - eexists. split; [reflexivity|]. split; [done|].
    eexists [_; _]. cbn. rewrite <- app_assoc. split; [reflexivity|].
    by repeat constructor.
Qed.

(** X21: when the module system has no module for a toolchain that is not
    the dummy one, [prepare] raises after that one question: nothing is
    added or loaded, and the toolchain is as it was. *)
Theorem prepare_missing_module t w onlymod :
  name t ≠ DUMMY_NAME ->
  mod_exists (modules w) (PyStr (name t)) (PyStr (version t)) = false ->
  prepare onlymod (t, w)
  = (Raise (NoModuleFoundForToolchain (name t) (version t)),
     (t, mkWorld (modules w)
           (calls w ++ [Call_exists (PyStr (name t)) (PyStr (version t))])
           (environ w) (log w))).
Proof. apply prepare_no_module. Qed.

(** X22: [prepare] never leaves a partly applied environment: when it
    raises, whatever the reason, no [setvar] call was made and the
    environment is as it was. *)
Theorem prepare_failure_keeps_environment t w onlymod e :
  fst (prepare onlymod (t, w)) = Raise e ->
  environ (snd (snd (prepare onlymod (t, w)))) = environ w
  ∧ ∃ new, calls (snd (snd (prepare onlymod (t, w)))) = calls w ++ new
           ∧ Forall (fun c => is_setvar c = false) new.
Proof.
  intros Hraise.
  destruct (decide (name t = DUMMY_NAME)) as [Hname|Hname].
  { destruct (prepare_dummy t w onlymod Hname) as (w' & Hrun & _).
    rewrite Hrun in Hraise. discriminate. }
  destruct (mod_exists (modules w) (PyStr (name t)) (PyStr (version t)))
    eqn:Hex.
  - rewrite (prepare_with_module t w onlymod Hname Hex) in Hraise |- *.
    match goal with
    | |- context [prepare_variables onlymod (?t1, ?w1)] =>
        destruct (prepare_variables_effects onlymod t1 w1)
          as (v & ovars & _ & Hw);
        destruct (prepare_variables onlymod (t1, w1)) as [[[]|e'] [t' w']]
    end; [discriminate|].
    cbn [fst snd] in *. subst w'. cbn. split; [done|].
    eexists. split; [reflexivity|]. by repeat constructor.
  - rewrite (prepare_no_module t w onlymod Hname Hex). cbn.
    split; [done|]. eexists. split; [reflexivity|]. by repeat constructor.
Qed.

(** X23: on a toolchain with a module, [prepare] writes exactly one
    record, whatever happens afterwards: an info record when the names the
    module reports are the filtered declared names, an error record when
    they are not. *)
Theorem prepare_logs_consistency t w onlymod :
  name t ≠ DUMMY_NAME ->
  mod_exists (modules w) (PyStr (name t)) (PyStr (version t)) = true ->
  log (snd (snd (prepare onlymod (t, w))))
  = log w ++
    [if bool_decide
          (list_to_set
             (td_name <$> mod_dependencies_for (modules w) (name t)
                            (version t) 0)
           = toolchain_elements_mod_names t
               (list_to_set
                  (td_name <$> mod_dependencies_for (modules w) (name t)
                                 (version t) 0)))
     then (INFO, "List of toolchain dependency modules and toolchain definition match!")
     else (ERROR, "List of toolchain dependency modules and toolchain definition do not match")].
Proof.
  intros Hname Hex. rewrite (prepare_with_module t w onlymod Hname Hex).
  match goal with
  | |- context [prepare_variables onlymod (?t1, ?w1)] =>
      destruct (prepare_variables_effects onlymod t1 w1)
        as (v & ovars & _ & Hw);
      destruct (prepare_variables onlymod (t1, w1)) as [[[]|e'] [t' w']]
  end; cbn [fst snd] in *.
  - destruct Hw as (d & _ & _ & ->).
    by rewrite (proj2 (world_setvars_frame _ _)).
  - by subst w'.
Qed.

(** X24: the consistency check of [prepare] passes exactly when every name
    the module reports is a declared element other than the toolchain's
    own name, and every required declared element other than that name is
    reported. *)
Theorem toolchain_elements_consistent t (D : gset string) :
  D = toolchain_elements_mod_names t D
  ↔ (∀ m, m ∈ D -> m ∈ module_name_elements t ∧ m ≠ name t)
    ∧ (∀ m, m ∈ module_name_elements t -> m ≠ name t ->
            is_required (cls t) m = true -> m ∈ D).
Proof.
  unfold toolchain_elements_mod_names. cbv zeta. split.
  - intros Heq. split.
    + intros m Hm. rewrite Heq in Hm.
      apply elem_of_filter in Hm as [_ Hm].
      by apply elem_of_filter in Hm as [? ?].
    + intros m Hm Hne Hreq. rewrite Heq.
      apply elem_of_filter. split; [by left|]. by apply elem_of_filter.
  - intros [H1 H2]. apply set_eq. intros m. split.
    + intros Hm. destruct (H1 m Hm). apply elem_of_filter.
      split; [by right|]. by apply elem_of_filter.
    + intros Hm. apply elem_of_filter in Hm as [Hor Hm].
      apply elem_of_filter in Hm as [Hne Hm].
      destruct Hor as [Hreq|Hin]; [by apply H2|done].
Qed.

(** X25: whatever its outcome, [prepare] leaves the class, the name, the
    version, the options and the registered dependencies of the toolchain
    as they were. *)
Theorem prepare_keeps_identity t w onlymod :
  cls (fst (snd (prepare onlymod (t, w)))) = cls t
  ∧ name (fst (snd (prepare onlymod (t, w)))) = name t
  ∧ version (fst (snd (prepare onlymod (t, w)))) = version t
  ∧ options (fst (snd (prepare onlymod (t, w)))) = options t
  ∧ dependencies (fst (snd (prepare onlymod (t, w)))) = dependencies t.
Proof.
  destruct (decide (name t = DUMMY_NAME)) as [Hname|Hname].
  { destruct (prepare_dummy t w onlymod Hname) as (w' & Hrun & _).
    by rewrite Hrun. }
  destruct (mod_exists (modules w) (PyStr (name t)) (PyStr (version t)))
    eqn:Hex.
  - rewrite (prepare_with_module t w onlymod Hname Hex).
    match goal with
    | |- context [prepare_variables onlymod (?t1, ?w1)] =>
        destruct (prepare_variables_effects onlymod t1 w1)
          as (v & ovars & Ht & _)
    end.
    by rewrite Ht.
  - by rewrite (prepare_no_module t w onlymod Hname Hex).
Qed.

(** X26: with [onlymod] [True], [prepare] on a toolchain with a module
    always returns normally: the modules are loaded and [self.vars] is
    generated from the variables as [set_variables] left them, no software
    root is looked up, no variable is set and the environment is as it
    was. *)
Theorem prepare_onlymod_true t w :
  name t ≠ DUMMY_NAME ->
  mod_exists (modules w) (PyStr (name t)) (PyStr (version t)) = true ->
  fst (prepare (ArgBool true) (t, w)) = Ok tt
  ∧ environ (snd (snd (prepare (ArgBool true) (t, w)))) = environ w
  ∧ calls (snd (snd (prepare (ArgBool true) (t, w))))
    = calls w ++
      [Call_exists (PyStr (name t)) (PyStr (version t));
       Call_add_module [ModTuple (name t) (version t)];
       Call_add_module (ModDep <$> dependencies t);
       Call_load;
       Call_dependencies_for (name t) (version t) 0]
  ∧ vars (fst (snd (prepare (ArgBool true) (t, w))))
    = Some (foldl (fun d kv => dict_set kv.1 kv.2 d) []
              (tv_items (VARIABLES_CLASS (cls t))
                 (variables (fst (snd (set_variables (t, w))))))).
Proof.
  intros Hname Hex. rewrite (prepare_with_module t w _ Hname Hex).
  unfold prepare_variables.
  rewrite (bind_Ok _ _ _ _ _ (set_variables_eq _ _)).
  rewrite (set_variables_eq t w). by unfold generate_vars.
Qed.

(** X27: a string for [onlymod] is refused late: on a toolchain with a
    module whose dependencies have their roots, [prepare] has loaded the
    modules and generated [self.vars] by the time it raises; only the
    environment is as it was. *)
Theorem prepare_onlymod_string t w s names roots :
  name t ≠ DUMMY_NAME ->
  mod_exists (modules w) (PyStr (name t)) (PyStr (version t)) = true ->
  Forall2 (fun d n => d !! "name" = Some n) (dependencies t) names ->
  Forall2 (fun n r => mod_get_software_root (modules w) n = Some r)
          names roots ->
  fst (prepare (ArgStr s) (t, w)) = Raise CommaSeparatedListDeprecated
  ∧ environ (snd (snd (prepare (ArgStr s) (t, w)))) = environ w
  ∧ calls (snd (snd (prepare (ArgStr s) (t, w))))
    = calls w ++
      [Call_exists (PyStr (name t)) (PyStr (version t));
       Call_add_module [ModTuple (name t) (version t)];
       Call_add_module (ModDep <$> dependencies t);
       Call_load;
       Call_dependencies_for (name t) (version t) 0]
  ∧ is_Some (vars (fst (snd (prepare (ArgStr s) (t, w))))).
Proof.
  intros Hname Hex Hnames Hroots.
  rewrite (prepare_with_module t w _ Hname Hex).
  unfold prepare_variables.
  match goal with
  | |- context [(set_variables ≫= ?k) (?t1, ?w1)] =>
      destruct (set_variables_run t1 w1) as [v2 Hsv];
      rewrite (bind_Ok _ _ _ _ _ Hsv);
      pose proof (_add_dependency_variables_ok (set_variables_field v2 t1) w1
                    names roots Hnames Hroots) as Hadd
  end.
  rewrite (bind_Ok _ _ _ _ _ Hadd).
  unfold generate_vars, _setenv_variables. run. cbn.
  done.
Qed.

(** ** [set_options] *)

Lemma set_opts_id t : set_opts (opts (options t)) t = t.
Proof. destruct t as [c n v [o m] vs gv ds tds]. reflexivity. Qed.

Lemma set_options_effects (l : list (string * pyval)) t :
  ∃ o, snd (set_options l t) = set_opts o t
       ∧ dom o = dom (opts (options t)).
Proof.
  revert t. induction l as [|[k v] l IH]; intros t.
  { exists (opts (options t)). by rewrite set_opts_id. }
  cbn [set_options]. case_bool_decide as Hk.
  - destruct (IH (set_opts (<[k := v]> (opts (options t))) t))
      as (o & Ho & Hdom).
    exists o. rewrite Ho. split; [done|].
    rewrite Hdom. cbn. by apply dom_insert_lookup_L.
  - exists (opts (options t)). by rewrite set_opts_id.
Qed.

(** X28: whatever its outcome, [set_options] changes nothing of the
    toolchain but the values of its options: the names of the options are
    the same afterwards, no option is added. *)
Theorem set_options_keeps_names (l : list (string * pyval)) t :
  ∃ o, snd (set_options l t) = set_opts o t
       ∧ dom o = dom (opts (options t)).
Proof. apply set_options_effects. Qed.

Lemma set_options_known (l : list (string * pyval)) t :
  NoDup l.*1 ->
  Forall (fun kv => is_Some (opts (options t) !! kv.1)) l ->
  set_options l t = (None, set_opts (list_to_map l ∪ opts (options t)) t).
Proof.
  revert t. induction l as [|[k v] l IH]; intros t Hnd Hall.
  { cbn. by rewrite (left_id_L ∅ (∪)), set_opts_id. }
  cbn in Hnd. apply NoDup_cons in Hnd as [Hk Hnd].
  apply Forall_cons in Hall as [Hkv Hall]. cbn in Hkv.
  cbn [set_options]. rewrite (bool_decide_eq_true_2 _ Hkv).
  rewrite IH; [|done|].
  - cbn. f_equal. unfold set_opts. cbn. f_equal. f_equal.
    rewrite <- insert_union_l. symmetry. apply insert_union_r.
    by apply not_elem_of_list_to_map_1.
  - cbn. eapply Forall_impl; [exact Hall|]. intros [k' v'] Hs. cbn in *.
    destruct (decide (k = k')) as [->|Hne].
    + by rewrite lookup_insert_eq.
    + by rewrite lookup_insert_ne.
Qed.

(** X29: when every option given is an option of the toolchain,
    [set_options] succeeds, and afterwards each option given has the value
    given and every other option the value it had. *)
Theorem set_options_sets (l : list (string * pyval)) t :
  NoDup l.*1 ->
  Forall (fun kv => is_Some (opts (options t) !! kv.1)) l ->
  fst (set_options l t) = None
  ∧ (∀ k v, (k, v) ∈ l ->
            opts (options (snd (set_options l t))) !! k = Some v)
  ∧ (∀ k, k ∉ l.*1 ->
          opts (options (snd (set_options l t))) !! k
          = opts (options t) !! k).
Proof.
  intros Hnd Hall. rewrite (set_options_known l t Hnd Hall). cbn.
  split; [done|]. split.
  - intros k v Hin. apply lookup_union_Some_l.
    by apply elem_of_list_to_map_1.
  - intros k Hk. apply lookup_union_r.
    by apply not_elem_of_list_to_map_1.
Qed.

(** X30: [set_options] stops at the first option the toolchain does not
    have, naming it, and is not atomic: the options given before that one
    keep their new values. *)
Theorem set_options_undefined (pre post : list (string * pyval)) opt v t :
  NoDup pre.*1 ->
  Forall (fun kv => is_Some (opts (options t) !! kv.1)) pre ->
  opts (options t) !! opt = None ->
  fst (set_options (pre ++ (opt, v) :: post) t)
    = Some (UndefinedToolchainOption opt (dom (opts (options t))))
  ∧ (∀ k u, (k, u) ∈ pre ->
            opts (options (snd (set_options (pre ++ (opt, v) :: post) t))) !! k
            = Some u).
Proof.
  intros Hnd Hall Hopt.
  assert (Happ : ∀ (l1 l2 : list (string * pyval)) t0,
            set_options (l1 ++ l2) t0
            = match fst (set_options l1 t0) with
              | None => set_options l2 (snd (set_options l1 t0))
              | Some e => set_options l1 t0
              end).
  { induction l1 as [|[k u] l1 IH]; intros l2 t0; [done|].
    cbn [set_options app]. case_bool_decide; [apply IH|done]. }
  rewrite Happ, (set_options_known pre t Hnd Hall). cbn [fst snd set_options].
  assert (Hnone : (list_to_map pre ∪ opts (options t)) !! opt = None).
  { apply lookup_union_None. split; [|done].
    apply not_elem_of_list_to_map_1. intros Hin.
    apply list_elem_of_fmap in Hin as ([k u] & -> & Hin).
    rewrite Forall_forall in Hall. apply Hall in Hin. cbn in Hin, Hopt.
    rewrite Hopt in Hin. by destruct Hin. }
  cbn [options set_opts opts]. rewrite bool_decide_eq_false_2
    by (rewrite Hnone; by intros [? ?]).
  cbn. split.
  - do 2 f_equal. rewrite dom_union_L.
    assert (dom (list_to_map pre : dict) ⊆ dom (opts (options t))).
    { intros k Hk. apply elem_of_dom in Hk as [u Hk].
      apply elem_of_list_to_map_2 in Hk.
      rewrite Forall_forall in Hall. apply Hall in Hk.
      by apply elem_of_dom. }
    set_solver.
  - intros k u Hin. apply lookup_union_Some_l.
    by apply elem_of_list_to_map_1.
Qed.

End MoreProperties.

(** ** The further properties at the examples *)

Lemma init_of_usable_class_witness :
  ∃ t, init Examples.goalf None (Some "1.1.0") = Ok t
       ∧ name t = "goalf" ∧ vars t = None.
Proof.
  destruct (init_of_usable_class Examples.goalf "1.1.0" eq_refl)
    as (t & Hinit & Hname & _ & _ & _ & _ & Hvars).
  exists t. split; [exact Hinit|]. split; [|exact Hvars].
  by injection Hname.
Defined.

Lemma toolchain_exists_dummy_witness :
  _toolchain_exists (Some "GCC") (Some "4.7")
    (Examples.dummy_dummy, Examples.world0)
  = (Ok true, (Examples.dummy_dummy, Examples.world0)).
Proof.
  exact (toolchain_exists_dummy Examples.dummy_dummy Examples.world0
           (Some "GCC") (Some "4.7") eq_refl).
Defined.

Lemma get_dependency_version_no_match_witness :
  fst (get_dependency_version Examples.hwloc (Examples.gcc47, Examples.world0))
  = Raise (NoToolchainVersionForDependency (PyStr "hwloc") "-GCC-4.7").
Proof.
  exact (f_equal fst
           (get_dependency_version_no_match Examples.gcc47 Examples.world0
              Examples.hwloc (PyStr "hwloc") "" eq_refl eq_refl eq_refl
              eq_refl)).
Defined.

Lemma get_dependency_version_independent_witness :
  fst (get_dependency_version Examples.openmpi_independent
         (Examples.gcc47, Examples.world0))
  = Ok (PyStr "1.6").
Proof.
  exact (f_equal fst
           (get_dependency_version_independent Examples.gcc47 Examples.world0
              Examples.openmpi_independent (PyBool true) "1.6" ""
              eq_refl eq_refl eq_refl eq_refl)).
Defined.


Lemma get_dependency_version_no_name_witness :
  get_dependency_version Examples.nameless (Examples.gcc47, Examples.world0)
  = (Raise (KeyError "name"), (Examples.gcc47, Examples.world0)).
Proof.
  exact (get_dependency_version_no_name Examples.gcc47 Examples.world0
           Examples.nameless "" eq_refl eq_refl eq_refl).
Defined.

Lemma get_dependency_version_bad_version_witness :
  get_dependency_version Examples.zlib_version_None
    (Examples.gcc47, Examples.world0)
  = (Raise TypeError, (Examples.gcc47, Examples.world0)).
Proof.
  assert (Hns : ∀ s, PyNone ≠ PyStr s) by (intros s H; discriminate H).
  exact (get_dependency_version_bad_version Examples.gcc47 Examples.world0
           Examples.zlib_version_None PyNone eq_refl Hns).
Defined.

Lemma add_dependencies_explicit_tc_witness :
  fst (add_dependencies [Examples.openmpi_gcc47]
         (Examples.gcc47, Examples.world0)) = Ok tt.
Proof.
  exact (f_equal fst
           (add_dependencies_explicit_tc Examples.openmpi_gcc47 Examples.gcc47
              Examples.world0 (PyStr "OpenMPI") (PyStr "1.6-GCC-4.7")
              eq_refl eq_refl eq_refl eq_refl)).
Defined.

Lemma add_dependencies_legacy_first_witness :
  add_dependencies [Examples.legacy; Examples.openmpi]
    (Examples.gcc47, Examples.world0)
  = (Raise (LegacyTkFound Examples.legacy), (Examples.gcc47, Examples.world0)).
Proof.
  assert (Htk : is_Some (Examples.legacy !! "tk")) by (by eexists).
  exact (add_dependencies_legacy_first Examples.legacy [Examples.openmpi]
           Examples.gcc47 Examples.world0 Htk).
Defined.


Lemma add_dependency_variables_names_witness :
  fst (_add_dependency_variables (Some [PyStr "OpenMPI"; PyNone]) None None
         (Examples.gcc47, Examples.world0)) = Ok tt.
Proof.
  assert (Hroots : Forall2
            (fun m r => mod_get_software_root (modules Examples.world0) m
                        = Some r)
            (filter (fun m => m ≠ PyNone) [PyStr "OpenMPI"; PyNone])
            ["/opt/OpenMPI"])
    by (repeat constructor).
  exact (f_equal fst
           (add_dependency_variables_names (PyStr "OpenMPI") [PyNone] None None
              ["/opt/OpenMPI"] Examples.gcc47 Examples.world0 Hroots)).
Defined.

Lemma setenv_variables_other_names_witness :
  environ (snd (snd (_setenv_variables (ArgList ["CFLAGS"])
                       (Examples.gcc47_vars, Examples.world0)))) !! "CFLAGS"
  = None.
Proof.
  assert (Hstr : ∀ s, ArgList ["CFLAGS"] ≠ ArgStr s)
    by (intros s H; discriminate H).
  assert (Hx : ∀ k, k ∈ [("CC", "gcc"); ("CFLAGS", "-O2")].*1 ->
                    k ∉ ["CFLAGS"] ->
                    "CFLAGS" ≠ k ∧ "CFLAGS" ≠ "EBVAR" +:+ k).
  { intros k Hk Hs. cbn in Hk.
    apply elem_of_cons in Hk as [->|Hk]; [by split|].
    apply list_elem_of_singleton in Hk as ->.
    destruct Hs. by left. }
  exact (setenv_variables_other_names Examples.gcc47_vars Examples.world0
           (ArgList ["CFLAGS"]) [("CC", "gcc"); ("CFLAGS", "-O2")] "CFLAGS"
           eq_refl Hstr Hx).
Defined.

Lemma setenv_variables_read_back_witness :
  environ (snd (snd (_setenv_variables ArgNone
                       (Examples.gcc47_vars, Examples.world0)))) !! "EBVARCC"
  = Some "gcc".
Proof.
  assert (Hstr : ∀ s, ArgNone ≠ ArgStr s) by (intros s H; discriminate H).
  assert (Hnd : NoDup [("CC", "gcc"); ("CFLAGS", "-O2")].*1).
  { cbn. apply NoDup_cons. split; [|apply NoDup_singleton].
    intros H%list_elem_of_singleton. discriminate H. }
  assert (Hal : ∀ a b, a ∈ [("CC", "gcc"); ("CFLAGS", "-O2")].*1 -> a ∉ [] ->
                       b ∈ [("CC", "gcc"); ("CFLAGS", "-O2")].*1 -> b ∉ [] ->
                       a ≠ "EBVAR" +:+ b).
  { intros a b Ha _ Hb _. cbn in Ha, Hb.
    apply elem_of_cons in Ha as [->|Ha];
      [|apply list_elem_of_singleton in Ha as ->];
      (apply elem_of_cons in Hb as [->|Hb];
       [|apply list_elem_of_singleton in Hb as ->]);
      intros H; discriminate H. }
  assert (Hin : ("CC", "gcc") ∈ [("CC", "gcc"); ("CFLAGS", "-O2")])
    by (by left).
  assert (Hs : "CC" ∉ []) by (by intros ?%elem_of_nil).
  exact (proj2 (setenv_variables_read_back Examples.gcc47_vars Examples.world0
                  ArgNone [("CC", "gcc"); ("CFLAGS", "-O2")] "CC" "gcc"
                  eq_refl Hstr Hnd Hal Hin Hs)).
Defined.

Lemma setenv_variables_before_generate_witness :
  _setenv_variables ArgNone (Examples.gcc47, Examples.world0)
  = (Raise AttributeError, (Examples.gcc47, Examples.world0)).
Proof.
  exact (setenv_variables_before_generate Examples.gcc47 Examples.world0
           ArgNone eq_refl).
Defined.

Lemma prepare_missing_module_witness :
  fst (prepare ArgNone (Examples.intel2013, Examples.world0))
  = Raise (NoModuleFoundForToolchain "intel" "2013").
Proof.
  assert (Hname : name Examples.intel2013 ≠ DUMMY_NAME)
    by (intros H; discriminate H).
  exact (f_equal fst
           (prepare_missing_module Examples.intel2013 Examples.world0 ArgNone
              Hname eq_refl)).
Defined.

Lemma prepare_failure_keeps_environment_witness :
  fst (prepare (ArgStr "CC,CXX") (Examples.goalf1_openmpi, Examples.world0))
    = Raise CommaSeparatedListDeprecated
  ∧ environ (snd (snd (prepare (ArgStr "CC,CXX")
                         (Examples.goalf1_openmpi, Examples.world0))))
    = ∅.
Proof.
  assert (H : fst (prepare (ArgStr "CC,CXX")
                     (Examples.goalf1_openmpi, Examples.world0))
              = Raise CommaSeparatedListDeprecated)
    by (vm_compute; reflexivity).
  split; [exact H|].
  exact (proj1 (prepare_failure_keeps_environment Examples.goalf1_openmpi
                  Examples.world0 (ArgStr "CC,CXX") _ H)).
Defined.

Lemma prepare_logs_consistency_witness :
  log (snd (snd (prepare ArgNone (Examples.goalf1_openmpi, Examples.world0))))
  = [(ERROR,
      "List of toolchain dependency modules and toolchain definition do not match")].
Proof.
  assert (Hname : name Examples.goalf1_openmpi ≠ DUMMY_NAME)
    by (intros H; discriminate H).
  pose proof (prepare_logs_consistency Examples.goalf1_openmpi Examples.world0
                ArgNone Hname eq_refl) as H.
  rewrite H. vm_compute. reflexivity.
Defined.

Lemma toolchain_elements_consistent_witness :
  ({[ "OpenMPI"; "GCC" ]} : gset string)
  = toolchain_elements_mod_names Examples.goalf1_openmpi {[ "OpenMPI"; "GCC" ]}.
Proof.
  apply (toolchain_elements_consistent Examples.goalf1_openmpi).
  split.
  - intros m Hm. split.
    + unfold module_name_elements. cbn. set_solver.
    + intros ->. apply elem_of_union in Hm as [Hm|Hm];
        apply elem_of_singleton in Hm; discriminate Hm.
  - intros m Hm _ _. unfold module_name_elements in Hm. cbn in Hm. set_solver.
Defined.

Lemma prepare_onlymod_true_witness :
  fst (prepare (ArgBool true) (Examples.goalf1_openmpi, Examples.world0))
    = Ok tt
  ∧ environ (snd (snd (prepare (ArgBool true)
                         (Examples.goalf1_openmpi, Examples.world0))))
    = ∅.
Proof.
  assert (Hname : name Examples.goalf1_openmpi ≠ DUMMY_NAME)
    by (intros H; discriminate H).
  pose proof (prepare_onlymod_true Examples.goalf1_openmpi Examples.world0
                Hname eq_refl) as (Hok & Henv & _).
  split; [exact Hok|exact Henv].
Defined.

Lemma prepare_onlymod_string_witness :
  fst (prepare (ArgStr "CC") (Examples.goalf1_openmpi, Examples.world0))
    = Raise CommaSeparatedListDeprecated
  ∧ is_Some (vars (fst (snd (prepare (ArgStr "CC")
                               (Examples.goalf1_openmpi, Examples.world0))))).
Proof.
  assert (Hname : name Examples.goalf1_openmpi ≠ DUMMY_NAME)
    by (intros H; discriminate H).
  assert (Hnames : Forall2 (fun (d : dict) n => d !! "name" = Some n)
                     (dependencies Examples.goalf1_openmpi) [PyStr "OpenMPI"])
    by (repeat constructor).
  assert (Hroots : Forall2
                     (fun n r => mod_get_software_root
                                   (modules Examples.world0) n = Some r)
                     [PyStr "OpenMPI"] ["/opt/OpenMPI"])
    by (repeat constructor).
  pose proof (prepare_onlymod_string Examples.goalf1_openmpi Examples.world0
                "CC" [PyStr "OpenMPI"] ["/opt/OpenMPI"]
                Hname eq_refl Hnames Hroots) as (Hraise & _ & _ & Hvars).
  split; [exact Hraise|exact Hvars].
Defined.

Lemma set_options_sets_witness :
  fst (set_options [("32bit", PyBool true)] Examples.gcc47_options) = None
  ∧ opts (options (snd (set_options [("32bit", PyBool true)]
                          Examples.gcc47_options))) !! "32bit"
    = Some (PyBool true).
Proof.
  assert (Hnd : NoDup [("32bit", PyBool true)].*1) by apply NoDup_singleton.
  assert (Hall : Forall (fun kv : string * pyval =>
                           is_Some (opts (options Examples.gcc47_options)
                                      !! kv.1))
                        [("32bit", PyBool true)]).
  { constructor; [|constructor]. by eexists. }
  pose proof (set_options_sets [("32bit", PyBool true)] Examples.gcc47_options
                Hnd Hall) as (Hok & Hset & _).
  split; [exact Hok|]. apply Hset. by left.
Defined.

Lemma set_options_undefined_witness :
  fst (set_options [("32bit", PyBool true); ("openmp", PyBool true)]
         Examples.gcc47_options)
  = Some (UndefinedToolchainOption "openmp"
            (dom (opts (options Examples.gcc47_options))))
  ∧ opts (options (snd (set_options
                          [("32bit", PyBool true); ("openmp", PyBool true)]
                          Examples.gcc47_options))) !! "32bit"
    = Some (PyBool true).
Proof.
  assert (Hnd : NoDup [("32bit", PyBool true)].*1) by apply NoDup_singleton.
  assert (Hall : Forall (fun kv : string * pyval =>
                           is_Some (opts (options Examples.gcc47_options)
                                      !! kv.1))
                        [("32bit", PyBool true)]).
  { constructor; [|constructor]. by eexists. }
  pose proof (set_options_undefined [("32bit", PyBool true)] []
                "openmp" (PyBool true) Examples.gcc47_options
                Hnd Hall eq_refl) as (Hraise & Hset).
  split; [exact Hraise|]. apply Hset. by left.
Defined.
